(** * paramz optimization adapters: a shallow embedding of
      [mzparam/optimization/optimization.py] and the properties of its
      specification.

    Layout: Python data and exceptions; strings ([str.lower], [str.find]);
    the registry [get_optimizer]; the [Optimizer] object and its subclasses
    as state-passing methods over an event log; theorems. *)

From Stdlib Require Import ZArith QArith Qabs Lqa Ascii String List Lia.
From Stdlib Require Import Floats.PrimFloat.
From stdpp Require Import base option strings gmap list pretty.

Local Open Scope string_scope.
Local Open Scope Z_scope.

(** ** Python exceptions raised by the module *)

Inductive exn : Type :=
  | AssertionError (msg : string)
  | KeyError (msg : string)
  | IndexError
  | TypeError
  | AttributeError (msg : string)
  | NotImplementedError (msg : string).

(** ** Python sequences: [l[i]] with negative indices counting from the end *)

Definition py_getitem {A : Type} (l : list A) (i : Z) : exn + A :=
  let n := Z.of_nat (length l) in
  let j := if i <? 0 then i + n else i in
  if (0 <=? j) && (j <? n)
  then match l !! Z.to_nat j with
       | Some a => inr a
       | None => inl IndexError
       end
  else inl IndexError.

(** ** Python numbers reaching [int(...)] *)

Inductive pynum : Type :=
  | PyInt (z : Z)
  | PyFloat (q : Q).

(** [int(v)]: identity on integers, truncation towards zero on floats. *)
Definition py_int (v : pynum) : Z :=
  match v with
  | PyInt z => z
  | PyFloat q => Z.quot (Qnum q) (Zpos (Qden q))
  end.

(** ** Strings *)

Module Str.

(** [c.lower()] on one character; only ['A'..'Z'] change. *)
Definition lower_ascii (c : ascii) : ascii :=
  let n := nat_of_ascii c in
  if ((65 <=? n) && (n <=? 90))%nat then ascii_of_nat (n + 32) else c.

Fixpoint lower (s : string) : string :=
  match s with
  | EmptyString => EmptyString
  | String c s' => String (lower_ascii c) (lower s')
  end.

(** [s.startswith(sub)] *)
Fixpoint startswith (s sub : string) {struct sub} : bool :=
  match sub, s with
  | EmptyString, _ => true
  | String _ _, EmptyString => false
  | String b sub', String a s' =>
      if Ascii.eqb a b then startswith s' sub' else false
  end.

(** The scan behind [s.find(sub)]: [i] is the index of the head of [s]. *)
Fixpoint find_from (s sub : string) (i : Z) : Z :=
  if startswith s sub then i
  else match s with
       | EmptyString => -1
       | String _ s' => find_from s' sub (i + 1)
       end.

(** [s.find(sub)]: lowest index of an occurrence, [-1] when there is none. *)
Definition find (s sub : string) : Z := find_from s sub 0.

(** [sub] occurs in [s]. *)
Definition occurs (sub s : string) : Prop :=
  exists pre post : string, s = pre +:+ sub +:+ post.

(** Case-insensitive containment of [name] in [key]. *)
Definition contains_ci (key name : string) : Prop :=
  occurs (lower name) (lower key).

End Str.

(** ** The registry *)

(** The adapter classes, as the values of the [optimizers] dict. *)
Inductive optimizer_class : Type :=
  | opt_tnc
  | opt_simplex
  | opt_lbfgsb
  | opt_SCG
  | Opt_Adadelta.

(** The dict literal of [get_optimizer], in insertion order (the order
    [keys()] iterates in). *)
Definition optimizers : list (string * optimizer_class) :=
  [ ("fmin_tnc", opt_tnc);
    ("simplex", opt_simplex);
    ("lbfgsb", opt_lbfgsb);
    ("scg", opt_SCG);
    ("adadelta", Opt_Adadelta) ].

Definition dict_keys {V : Type} (d : list (string * V)) : list string :=
  map fst d.

(** [d[k]] *)
Fixpoint dict_getitem {V : Type} (d : list (string * V)) (k : string) : exn + V :=
  match d with
  | [] => inl (KeyError k)
  | (k', v) :: d' => if String.eqb k' k then inr v else dict_getitem d' k
  end.

(** The [for opt_name in optimizers.keys()] loop of [get_optimizer], over an
    arbitrary dict [d]. *)
Fixpoint get_optimizer_loop {V : Type} (d : list (string * V))
    (keys : list string) (f_min : string) : exn + V :=
  match keys with
  | [] => inl (KeyError ("No optimizer was found matching the name: " +:+ f_min))
  | opt_name :: keys' =>
      if negb (Str.find (Str.lower opt_name) (Str.lower f_min) =? -1)
      then dict_getitem d opt_name
      else get_optimizer_loop d keys' f_min
  end.

Definition get_optimizer (f_min : string) : exn + optimizer_class :=
  get_optimizer_loop optimizers (dict_keys optimizers) f_min.

(** No entry of [l] has a key that contains [name]. *)
Definition no_match {V : Type} (name : string) (l : list (string * V)) : Prop :=
  Forall (fun kc : string * V => ~ Str.contains_ci kc.1 name) l.

(** [(key, cls)] is the first entry of [l] whose key contains [name]. *)
Definition first_match {V : Type} (name : string) (l : list (string * V))
    (key : string) (cls : V) : Prop :=
  exists before after : list (string * V),
    l = (before ++ (key, cls) :: after)%list
    /\ Str.contains_ci key name /\ no_match name before.

(** ** The environment of the adapters

    What the module imports and does not define: the array and float types
    of numpy, [datetime], the scipy minimizers, [SCG] of the sibling module
    [scg], and climin's Adadelta.  The minimizers are functions of what the
    adapter passes them. *)

(** The [d] of [fmin_l_bfgs_b]'s result, at the keys the adapter reads. *)
Record lbfgsb_info : Type := {
  funcalls : Z;
  warnflag : Z;
  task : string
}.

(** A climin optimizer object being iterated: the [n_iter] entry of the
    [k]-th yielded [info] (counting from 0), and what [opt.wrt] holds once
    that [info] has been yielded.  climin keeps the array it is given as
    [opt.wrt] and updates it in place, so this is also what the caller's
    array holds then. *)
Record climin_opt (vec : Type) : Type := {
  info_n_iter : nat -> Z;
  wrt : nat -> vec
}.
Arguments info_n_iter {vec} _ _.
Arguments wrt {vec} _ _.

Class Env : Type := {
  vec : Type;
  float : Type;
  grad : Type;
  modelT : Type;
  datetime : Type;
  (** [str(end - start)] *)
  str_timedelta : datetime -> datetime -> string;
  (** ["%.3f" % v] *)
  format_3f : float -> string;
  (** [optimize.fmin_tnc(f_fp, x0, messages=, maxfun=, **opts)]:
      [(x, nfeval, rc)] *)
  fmin_tnc : (vec -> float * grad) -> vec -> bool -> Z -> gmap string float ->
             vec * Z * Z;
  (** [optimize.fmin_l_bfgs_b(f_fp, x0, iprint=, maxfun=, **opts)]:
      [(x, f, d)] *)
  fmin_l_bfgs_b : (vec -> float * grad) -> vec -> Z -> Z -> gmap string float ->
                  vec * float * lbfgsb_info;
  (** [optimize.fmin(f, x0, (), disp=, maxfun=, full_output=True, **opts)]
      for a callable [f]: [(xopt, fopt, iter, funcalls, warnflag)] *)
  fmin : (vec -> float) -> vec -> bool -> Z -> gmap string float ->
         vec * float * Z * Z * Z;
  (** [SCG(f, fp, x0, display=, maxiters=, max_f_eval=, xtol=, ftol=, gtol=)]:
      [(x, flog, function_eval, status)] *)
  SCG : (vec -> float) -> (vec -> grad) -> vec -> bool -> Z -> Z ->
        option float -> option float -> option float ->
        vec * list float * Z * string;
  (** [climin.adadelta.Adadelta(wrt, fprime, step_rate=, decay=, momentum=)] *)
  climin_Adadelta : vec -> (vec -> grad) -> pynum -> pynum -> pynum ->
                    climin_opt vec
}.

(** How a method call ends.  [OutOfFuel] is not a Python outcome: it marks
    a loop that is still running when the model's fuel is spent. *)
Inductive outcome (A : Type) : Type :=
  | Returned (a : A)
  | Raised (e : exn)
  | OutOfFuel.
Arguments Returned {A} a.
Arguments Raised {A} e.
Arguments OutOfFuel {A}.

Section Adapter.
Context {E : Env}.

(** ** Observable effects of a method call, in order *)
Inductive event : Type :=
  | Ev_warn (msg category : string)
  | Ev_print (msg : string)
  | Ev_fmin_tnc (x0 : vec) (messages : bool) (maxfun : Z)
      (opts : gmap string float)
  | Ev_fmin_l_bfgs_b (x0 : vec) (iprint maxfun : Z) (opts : gmap string float)
  | Ev_fmin (x0 : vec) (disp : bool) (maxfun : Z) (opts : gmap string float)
  | Ev_SCG (x0 : vec) (display : bool) (maxiters max_f_eval : Z)
      (xtol ftol gtol : option float)
  | Ev_climin_Adadelta (x0 : vec) (step_rate decay momentum : pynum)
  | Ev_f_fp (x : vec).

(** ** The [Optimizer] object

    One record for the attributes of the base class and of its subclasses;
    [None] is Python's [None], and for the three Adadelta attributes an
    attribute that is not set.  The array attributes hold the contents of
    the array they are bound to. *)
Record Optimizer : Type := {
  opt_name : option string;
  x_init : vec;
  messages : bool;
  f_opt : option float;
  x_opt : option vec;
  funct_eval : option Z;
  status : option string;
  max_f_eval : Z;
  max_iters : Z;
  bfgs_factor : option float;
  trace : option (list float);
  time : string;
  xtol : option float;
  gtol : option float;
  ftol : option float;
  model : option modelT;
  step_rate : option pynum;
  decay : option pynum;
  momentum : option pynum;
  (** [self.x_opt is self.x_init]: the two attributes are bound to one
      array, as after [self.x_opt = opt.wrt] in [Opt_Adadelta.opt] *)
  x_opt_shares : bool
}.

Definition set_opt_name (v : option string) (o : Optimizer) : Optimizer :=
  {| opt_name := v; x_init := x_init o; messages := messages o;
     f_opt := f_opt o; x_opt := x_opt o; funct_eval := funct_eval o;
     status := status o; max_f_eval := max_f_eval o; max_iters := max_iters o;
     bfgs_factor := bfgs_factor o; trace := trace o; time := time o;
     xtol := xtol o; gtol := gtol o; ftol := ftol o; model := model o;
     step_rate := step_rate o; decay := decay o; momentum := momentum o;
     x_opt_shares := x_opt_shares o |}.

Definition set_f_opt (v : option float) (o : Optimizer) : Optimizer :=
  {| opt_name := opt_name o; x_init := x_init o; messages := messages o;
     f_opt := v; x_opt := x_opt o; funct_eval := funct_eval o;
     status := status o; max_f_eval := max_f_eval o; max_iters := max_iters o;
     bfgs_factor := bfgs_factor o; trace := trace o; time := time o;
     xtol := xtol o; gtol := gtol o; ftol := ftol o; model := model o;
     step_rate := step_rate o; decay := decay o; momentum := momentum o;
     x_opt_shares := x_opt_shares o |}.

(** [self.x_opt = v] for an array of its own (or [None]) *)
Definition set_x_opt (v : option vec) (o : Optimizer) : Optimizer :=
  {| opt_name := opt_name o; x_init := x_init o; messages := messages o;
     f_opt := f_opt o; x_opt := v; funct_eval := funct_eval o;
     status := status o; max_f_eval := max_f_eval o; max_iters := max_iters o;
     bfgs_factor := bfgs_factor o; trace := trace o; time := time o;
     xtol := xtol o; gtol := gtol o; ftol := ftol o; model := model o;
     step_rate := step_rate o; decay := decay o; momentum := momentum o;
     x_opt_shares := false |}.

(** [self.x_opt = opt.wrt], where [opt.wrt] is the array [self.x_init] *)
Definition share_x_opt (o : Optimizer) : Optimizer :=
  {| opt_name := opt_name o; x_init := x_init o; messages := messages o;
     f_opt := f_opt o; x_opt := Some (x_init o); funct_eval := funct_eval o;
     status := status o; max_f_eval := max_f_eval o; max_iters := max_iters o;
     bfgs_factor := bfgs_factor o; trace := trace o; time := time o;
     xtol := xtol o; gtol := gtol o; ftol := ftol o; model := model o;
     step_rate := step_rate o; decay := decay o; momentum := momentum o;
     x_opt_shares := true |}.

(** An in-place update of the array [self.x_init] to the contents [v]: no
    attribute is assigned, and [self.x_opt] shows the update when it is
    bound to the same array. *)
Definition move_x_init (v : vec) (o : Optimizer) : Optimizer :=
  {| opt_name := opt_name o; x_init := v; messages := messages o;
     f_opt := f_opt o;
     x_opt := if x_opt_shares o then Some v else x_opt o;
     funct_eval := funct_eval o;
     status := status o; max_f_eval := max_f_eval o; max_iters := max_iters o;
     bfgs_factor := bfgs_factor o; trace := trace o; time := time o;
     xtol := xtol o; gtol := gtol o; ftol := ftol o; model := model o;
     step_rate := step_rate o; decay := decay o; momentum := momentum o;
     x_opt_shares := x_opt_shares o |}.

Definition set_funct_eval (v : option Z) (o : Optimizer) : Optimizer :=
  {| opt_name := opt_name o; x_init := x_init o; messages := messages o;
     f_opt := f_opt o; x_opt := x_opt o; funct_eval := v;
     status := status o; max_f_eval := max_f_eval o; max_iters := max_iters o;
     bfgs_factor := bfgs_factor o; trace := trace o; time := time o;
     xtol := xtol o; gtol := gtol o; ftol := ftol o; model := model o;
     step_rate := step_rate o; decay := decay o; momentum := momentum o;
     x_opt_shares := x_opt_shares o |}.

Definition set_status (v : option string) (o : Optimizer) : Optimizer :=
  {| opt_name := opt_name o; x_init := x_init o; messages := messages o;
     f_opt := f_opt o; x_opt := x_opt o; funct_eval := funct_eval o;
     status := v; max_f_eval := max_f_eval o; max_iters := max_iters o;
     bfgs_factor := bfgs_factor o; trace := trace o; time := time o;
     xtol := xtol o; gtol := gtol o; ftol := ftol o; model := model o;
     step_rate := step_rate o; decay := decay o; momentum := momentum o;
     x_opt_shares := x_opt_shares o |}.

Definition set_trace (v : option (list float)) (o : Optimizer) : Optimizer :=
  {| opt_name := opt_name o; x_init := x_init o; messages := messages o;
     f_opt := f_opt o; x_opt := x_opt o; funct_eval := funct_eval o;
     status := status o; max_f_eval := max_f_eval o; max_iters := max_iters o;
     bfgs_factor := bfgs_factor o; trace := v; time := time o;
     xtol := xtol o; gtol := gtol o; ftol := ftol o; model := model o;
     step_rate := step_rate o; decay := decay o; momentum := momentum o;
     x_opt_shares := x_opt_shares o |}.

Definition set_time (v : string) (o : Optimizer) : Optimizer :=
  {| opt_name := opt_name o; x_init := x_init o; messages := messages o;
     f_opt := f_opt o; x_opt := x_opt o; funct_eval := funct_eval o;
     status := status o; max_f_eval := max_f_eval o; max_iters := max_iters o;
     bfgs_factor := bfgs_factor o; trace := trace o; time := v;
     xtol := xtol o; gtol := gtol o; ftol := ftol o; model := model o;
     step_rate := step_rate o; decay := decay o; momentum := momentum o;
     x_opt_shares := x_opt_shares o |}.

Definition set_adadelta (sr dc mo : pynum) (o : Optimizer) : Optimizer :=
  {| opt_name := opt_name o; x_init := x_init o; messages := messages o;
     f_opt := f_opt o; x_opt := x_opt o; funct_eval := funct_eval o;
     status := status o; max_f_eval := max_f_eval o; max_iters := max_iters o;
     bfgs_factor := bfgs_factor o; trace := trace o; time := time o;
     xtol := xtol o; gtol := gtol o; ftol := ftol o; model := model o;
     step_rate := Some sr; decay := Some dc; momentum := Some mo;
     x_opt_shares := x_opt_shares o |}.

(** The tolerance attributes are written by [__init__] only; these two
    setters serve to state that a run does not depend on a field. *)
Definition with_tols (xt ft gt : option float) (o : Optimizer) : Optimizer :=
  {| opt_name := opt_name o; x_init := x_init o; messages := messages o;
     f_opt := f_opt o; x_opt := x_opt o; funct_eval := funct_eval o;
     status := status o; max_f_eval := max_f_eval o; max_iters := max_iters o;
     bfgs_factor := bfgs_factor o; trace := trace o; time := time o;
     xtol := xt; gtol := gt; ftol := ft; model := model o;
     step_rate := step_rate o; decay := decay o; momentum := momentum o;
     x_opt_shares := x_opt_shares o |}.

(** ** Arguments of the constructors after [x_init]; [None]: not supplied *)
Record kwargs : Type := {
  kw_messages : option bool;
  kw_model : option modelT;
  kw_max_f_eval : option pynum;
  kw_max_iters : option pynum;
  kw_ftol : option float;
  kw_gtol : option float;
  kw_xtol : option float;
  kw_bfgs_factor : option float;
  (** how many of the arguments after [x_init] were passed positionally
      (they bind [messages], [model], [max_f_eval], ... in this order); the
      other supplied ones were passed by keyword *)
  n_positional : nat
}.

Definition no_kwargs : kwargs :=
  {| kw_messages := None; kw_model := None; kw_max_f_eval := None;
     kw_max_iters := None; kw_ftol := None; kw_gtol := None; kw_xtol := None;
     kw_bfgs_factor := None; n_positional := 0 |}.

(** [Optimizer.__init__] *)
Definition Optimizer_init (x_init : vec) (kw : kwargs) : Optimizer :=
  let messages_arg := default false (kw_messages kw) in
  let max_f_eval_arg := default (PyFloat (10000 # 1)) (kw_max_f_eval kw) in
  let max_iters_arg := default (PyFloat (1000 # 1)) (kw_max_iters kw) in
  {| opt_name := None;
     x_init := x_init;
     messages := false;
     f_opt := None;
     x_opt := None;
     funct_eval := None;
     status := None;
     max_f_eval := py_int max_iters_arg;
     max_iters := py_int max_iters_arg;
     bfgs_factor := kw_bfgs_factor kw;
     trace := None;
     time := "Not available";
     xtol := kw_xtol kw;
     gtol := kw_gtol kw;
     ftol := kw_ftol kw;
     model := kw_model kw;
     step_rate := None; decay := None; momentum := None;
     x_opt_shares := false |}.

(** ** Methods: state passing over [self], with an event log

    A method maps [self] to the mutated [self], the events it caused, and
    how it ended.  An exception keeps the mutations and events made before
    it. *)

Definition M (A : Type) : Type :=
  Optimizer -> Optimizer * list event * outcome A.

Definition ret {A : Type} (a : A) : M A :=
  fun self => (self, [], Returned a).

Definition raise {A : Type} (e : exn) : M A :=
  fun self => (self, [], Raised e).

Definition bind {A B : Type} (m : M A) (k : A -> M B) : M B :=
  fun self =>
    match m self with
    | (self1, l1, Returned a) =>
        match k a self1 with
        | (self2, l2, r) => (self2, (l1 ++ l2)%list, r)
        end
    | (self1, l1, Raised e) => (self1, l1, Raised e)
    | (self1, l1, OutOfFuel) => (self1, l1, OutOfFuel)
    end.

Notation "x <- m ;; k" := (bind m (fun x => k))
  (at level 100, m at next level, right associativity).
Notation "m ;;; k" := (bind m (fun _ => k))
  (at level 100, right associativity).

Definition get_self : M Optimizer :=
  fun self => (self, [], Returned self).

Definition modify_self (f : Optimizer -> Optimizer) : M unit :=
  fun self => (f self, [], Returned tt).

Definition emit (ev : event) : M unit :=
  fun self => (self, [ev], Returned tt).

Definition lift_exn {A : Type} (r : exn + A) : M A :=
  match r with
  | inl e => raise e
  | inr a => ret a
  end.

(** [assert v != None, msg] (or [assert not v is None]), giving the value *)
Definition py_assert {A : Type} (v : option A) (msg : string) : M A :=
  match v with
  | Some a => ret a
  | None => raise (AssertionError msg)
  end.

(** Reading an attribute that only [Opt_Adadelta.__init__] sets. *)
Definition getattr {A : Type} (v : option A) (name : string) : M A :=
  match v with
  | Some a => ret a
  | None => raise (AttributeError name)
  end.

(** [if v is not None: opt_dict[key] = v] *)
Definition dict_set_if (key : string) (v : option float)
    (opt_dict : gmap string float) : gmap string float :=
  match v with
  | Some x => <[key := x]> opt_dict
  | None => opt_dict
  end.

(** [if v is not None: print(msg)] *)
Definition print_if (v : option float) (msg : string) : M unit :=
  match v with
  | Some _ => emit (Ev_print msg)
  | None => ret tt
  end.

(** [Optimizer.opt] *)
Definition Optimizer_opt (f_fp : option (vec -> float * grad))
    (f : option (vec -> float)) (fp : option (vec -> grad)) : M unit :=
  raise (NotImplementedError
           "this needs to be implemented to use the optimizer class").

(** [Optimizer.run], for the [opt] method of the object's class; [start] and
    [end_] are the two readings of [dt.datetime.now()]. *)
Definition Optimizer_run (opt : M unit) (start end_ : datetime) : M unit :=
  opt ;;;
  modify_self (set_time (str_timedelta end_ start)).

(** *** TNC *)

Definition opt_tnc_init (x_init : vec) (kw : kwargs) : Optimizer :=
  set_opt_name (Some "TNC (Scipy implementation)") (Optimizer_init x_init kw).

Definition tnc_rcstrings : list string :=
  [ "Local minimum"; "Converged"; "XConverged";
    "Maximum number of f evaluations reached";
    "Line search failed"; "Function is constant" ].

Definition opt_tnc_opt (f_fp : option (vec -> float * grad))
    (f : option (vec -> float)) (fp : option (vec -> grad)) : M unit :=
  f_fp <- py_assert f_fp "TNC requires f_fp" ;;
  self <- get_self ;;
  let opt_dict := dict_set_if "xtol" (xtol self) ∅ in
  let opt_dict := dict_set_if "ftol" (ftol self) opt_dict in
  let opt_dict := dict_set_if "pgtol" (gtol self) opt_dict in
  emit (Ev_fmin_tnc (x_init self) (messages self) (max_f_eval self) opt_dict) ;;;
  let opt_result :=
    fmin_tnc f_fp (x_init self) (messages self) (max_f_eval self) opt_dict in
  let x := opt_result.1.1 in
  modify_self (set_x_opt (Some x)) ;;;
  emit (Ev_f_fp x) ;;;
  modify_self (set_f_opt (Some (f_fp x).1)) ;;;
  modify_self (set_funct_eval (Some opt_result.1.2)) ;;;
  s <- lift_exn (py_getitem tnc_rcstrings opt_result.2) ;;
  modify_self (set_status (Some s)).

(** *** L-BFGS-B *)

Definition opt_lbfgsb_init (x_init : vec) (kw : kwargs) : Optimizer :=
  set_opt_name (Some "L-BFGS-B (Scipy implementation)")
    (Optimizer_init x_init kw).

Definition rcstrings : list string :=
  [ "Converged"; "Maximum number of f evaluations reached"; "Error" ].

Definition opt_lbfgsb_opt (f_fp : option (vec -> float * grad))
    (f : option (vec -> float)) (fp : option (vec -> grad)) : M unit :=
  f_fp <- py_assert f_fp "BFGS requires f_fp" ;;
  self <- get_self ;;
  let iprint := if messages self then 1 else -1 in
  let opt_dict : gmap string float := ∅ in
  print_if (xtol self)
    "WARNING: l-bfgs-b doesn't have an xtol arg, so I'm going to ignore it" ;;;
  print_if (ftol self)
    "WARNING: l-bfgs-b doesn't have an ftol arg, so I'm going to ignore it" ;;;
  let opt_dict := dict_set_if "pgtol" (gtol self) opt_dict in
  let opt_dict := dict_set_if "factr" (bfgs_factor self) opt_dict in
  emit (Ev_fmin_l_bfgs_b (x_init self) iprint (max_iters self) opt_dict) ;;;
  let opt_result :=
    fmin_l_bfgs_b f_fp (x_init self) iprint (max_iters self) opt_dict in
  let x := opt_result.1.1 in
  let d := opt_result.2 in
  modify_self (set_x_opt (Some x)) ;;;
  emit (Ev_f_fp x) ;;;
  modify_self (set_f_opt (Some (f_fp x).1)) ;;;
  modify_self (set_funct_eval (Some (funcalls d))) ;;;
  s <- lift_exn (py_getitem rcstrings (warnflag d)) ;;
  modify_self (set_status (Some s)) ;;;
  if warnflag d =? 2
  then modify_self (set_status (Some ("Error" +:+ task d)))
  else ret tt.

(** *** Nelder-Mead simplex *)

Definition opt_simplex_init (x_init : vec) (kw : kwargs) : Optimizer :=
  set_opt_name (Some "Nelder-Mead simplex routine (via Scipy)")
    (Optimizer_init x_init kw).

Definition statuses : list string :=
  [ "Converged"; "Maximum number of function evaluations made";
    "Maximum number of iterations reached" ].

Definition opt_simplex_opt (f_fp : option (vec -> float * grad))
    (f : option (vec -> float)) (fp : option (vec -> grad)) : M unit :=
  self <- get_self ;;
  let opt_dict := dict_set_if "xtol" (xtol self) ∅ in
  let opt_dict := dict_set_if "ftol" (ftol self) opt_dict in
  print_if (gtol self)
    "WARNING: simplex doesn't have an gtol arg, so I'm going to ignore it" ;;;
  emit (Ev_fmin (x_init self) (messages self) (max_f_eval self) opt_dict) ;;;
  match f with
  | None =>
      (* [optimize.fmin] calls [f]: 'NoneType' object is not callable *)
      raise TypeError
  | Some f =>
      let opt_result :=
        fmin f (x_init self) (messages self) (max_f_eval self) opt_dict in
      match opt_result with
      | (r0, r1, _, r3, r4) =>
          modify_self (set_x_opt (Some r0)) ;;;
          modify_self (set_f_opt (Some r1)) ;;;
          modify_self (set_funct_eval (Some r3)) ;;;
          s <- lift_exn (py_getitem statuses r4) ;;
          modify_self (set_status (Some s)) ;;;
          modify_self (set_trace None)
      end
  end.

(** *** Scaled conjugate gradients *)

(** ['max_f_eval' in kwargs]: supplied, and not among the positional
    arguments, of which it would be the third after [x_init]. *)
Definition max_f_eval_in_kwargs (kw : kwargs) : bool :=
  match kw_max_f_eval kw with
  | Some _ => (n_positional kw <? 3)%nat
  | None => false
  end.

Definition opt_SCG_init (x_init : vec) (kw : kwargs) :
    list event * Optimizer :=
  let warned :=
    if max_f_eval_in_kwargs kw
    then [ Ev_warn
             ("max_f_eval deprecated for SCG optimizer: use max_iters instead!"
              +:+ String "010"%char "Ignoring max_f_eval!")
             "FutureWarning" ]
    else [] in
  (warned,
   set_opt_name (Some "Scaled Conjugate Gradients") (Optimizer_init x_init kw)).

Definition opt_SCG_opt (f_fp : option (vec -> float * grad))
    (f : option (vec -> float)) (fp : option (vec -> grad)) : M unit :=
  f <- py_assert f "" ;;
  fp <- py_assert fp "" ;;
  self <- get_self ;;
  emit (Ev_SCG (x_init self) (messages self) (max_iters self)
          (max_f_eval self) (xtol self) (ftol self) (gtol self)) ;;;
  let opt_result :=
    SCG f fp (x_init self) (messages self) (max_iters self) (max_f_eval self)
      (xtol self) (ftol self) (gtol self) in
  match opt_result with
  | (r0, r1, r2, r3) =>
      modify_self (set_x_opt (Some r0)) ;;;
      modify_self (set_trace (Some r1)) ;;;
      last <- lift_exn (py_getitem r1 (-1)) ;;
      modify_self (set_f_opt (Some last)) ;;;
      modify_self (set_funct_eval (Some r2)) ;;;
      modify_self (set_status (Some r3))
  end.

(** *** Adadelta *)

Definition Opt_Adadelta_init (step_rate decay momentum : option pynum)
    (x_init : vec) (kw : kwargs) : Optimizer :=
  set_adadelta
    (default (PyFloat (1 # 10)) step_rate)
    (default (PyFloat (9 # 10)) decay)
    (default (PyInt 0) momentum)
    (set_opt_name (Some "Adadelta (climin)") (Optimizer_init x_init kw)).

(** The [for info in opt] loop from the [k]-th [info] on: the index of the
    [info] at which the loop breaks, [None] while it is still running after
    [fuel] iterations.  Each iteration is one climin step on the array
    [self.x_init], which [opt.wrt] is. *)
Fixpoint adadelta_loop (fuel : nat) (opt : climin_opt vec) (max_iters : Z)
    (k : nat) : option nat :=
  match fuel with
  | O => None
  | S fuel' =>
      if max_iters <=? info_n_iter opt k then Some k
      else adadelta_loop fuel' opt max_iters (S k)
  end.

Definition Opt_Adadelta_opt (fuel : nat)
    (f_fp : option (vec -> float * grad))
    (f : option (vec -> float)) (fp : option (vec -> grad)) : M unit :=
  fp <- py_assert fp "" ;;
  self <- get_self ;;
  sr <- getattr (step_rate self) "step_rate" ;;
  dc <- getattr (decay self) "decay" ;;
  mo <- getattr (momentum self) "momentum" ;;
  emit (Ev_climin_Adadelta (x_init self) sr dc mo) ;;;
  let opt := climin_Adadelta (x_init self) fp sr dc mo in
  match adadelta_loop fuel opt (max_iters self) 0 with
  | None =>
      fun self =>
        (match fuel with
         | O => self
         | S n => move_x_init (wrt opt n) self
         end, [], OutOfFuel)
  | Some k =>
      modify_self (move_x_init (wrt opt k)) ;;;
      modify_self share_x_opt ;;;
      modify_self
        (set_status (Some "maximum number of function evaluations exceeded "))
  end.

(** *** [Optimizer.__str__] *)

Definition TAB : string := String "009"%char "".
Definition NL : string := String "010"%char "".

(** ["%s" % v] for an attribute that holds a string or [None] *)
Definition format_s (v : option string) : string := default "None" v.

(** ["%.3f" % v]: a [TypeError] on [None] *)
Definition format_f (v : option float) : exn + string :=
  match v with
  | Some x => inr (format_3f x)
  | None => inl TypeError
  end.

(** ["%d" % v]: a [TypeError] on [None] *)
Definition format_d (v : option Z) : exn + string :=
  match v with
  | Some z => inr (pretty z)
  | None => inl TypeError
  end.

Definition Optimizer_str (self : Optimizer) : exn + string :=
  let diagnostics :=
    "Optimizer: " +:+ TAB +:+ TAB +:+ TAB +:+ TAB +:+ " "
    +:+ format_s (opt_name self) +:+ NL in
  match format_f (f_opt self) with
  | inl e => inl e
  | inr s_f =>
      let diagnostics :=
        diagnostics +:+ "f(x_opt): " +:+ TAB +:+ TAB +:+ TAB +:+ TAB +:+ " "
        +:+ s_f +:+ NL in
      match format_d (funct_eval self) with
      | inl e => inl e
      | inr s_n =>
          let diagnostics :=
            diagnostics +:+ "Number of function evaluations: " +:+ TAB +:+ " "
            +:+ s_n +:+ NL in
          let diagnostics :=
            diagnostics +:+ "Optimization status: " +:+ TAB +:+ TAB +:+ TAB
            +:+ " " +:+ format_s (status self) +:+ NL in
          let diagnostics :=
            diagnostics +:+ "Time elapsed: " +:+ TAB +:+ TAB +:+ TAB +:+ TAB
            +:+ " " +:+ time self +:+ NL in
          inr diagnostics
      end
  end.

(** ** Reading a method call

    Names for what the properties below speak of. *)

(** The final object, the events and the outcome of a method call. *)
Definition final {A : Type} (r : Optimizer * list event * outcome A) :
    Optimizer := r.1.1.
Definition events {A : Type} (r : Optimizer * list event * outcome A) :
    list event := r.1.2.
Definition result {A : Type} (r : Optimizer * list event * outcome A) :
    outcome A := r.2.

(** The options the three scipy adapters build from the tolerances. *)
Definition tnc_opts (o : Optimizer) : gmap string float :=
  dict_set_if "pgtol" (gtol o)
    (dict_set_if "ftol" (ftol o) (dict_set_if "xtol" (xtol o) ∅)).

Definition lbfgsb_opts (o : Optimizer) : gmap string float :=
  dict_set_if "factr" (bfgs_factor o) (dict_set_if "pgtol" (gtol o) ∅).

Definition simplex_opts (o : Optimizer) : gmap string float :=
  dict_set_if "ftol" (ftol o) (dict_set_if "xtol" (xtol o) ∅).

(** The warnings printed for tolerances a backend does not take. *)
Definition warning_if (v : option float) (msg : string) : list event :=
  match v with
  | Some _ => [Ev_print msg]
  | None => []
  end.

Definition lbfgsb_warnings (o : Optimizer) : list event :=
  (warning_if (xtol o)
     "WARNING: l-bfgs-b doesn't have an xtol arg, so I'm going to ignore it"
   ++ warning_if (ftol o)
     "WARNING: l-bfgs-b doesn't have an ftol arg, so I'm going to ignore it")%list.

Definition simplex_warnings (o : Optimizer) : list event :=
  warning_if (gtol o)
    "WARNING: simplex doesn't have an gtol arg, so I'm going to ignore it".

(** How a status lookup ends a method. *)
Definition lookup_outcome (table : list string) (code : Z) : outcome unit :=
  match py_getitem table code with
  | inr _ => Returned tt
  | inl e => Raised e
  end.

(** Arguments that supply [max_f_eval] only, by keyword. *)
Definition only_max_f_eval (v : pynum) : kwargs :=
  {| kw_messages := None; kw_model := None; kw_max_f_eval := Some v;
     kw_max_iters := None; kw_ftol := None; kw_gtol := None; kw_xtol := None;
     kw_bfgs_factor := None; n_positional := 0 |}.

(** A backend call made with progress output disabled. *)
Definition quiet (ev : event) : Prop :=
  match ev with
  | Ev_fmin_tnc _ m _ _ => m = false
  | Ev_fmin_l_bfgs_b _ iprint _ _ => iprint = -1
  | Ev_fmin _ disp _ _ => disp = false
  | Ev_SCG _ display _ _ _ _ _ => display = false
  | _ => True
  end.

(** The attributes a run of [opt] reads and does not write, with [time],
    which only [run] writes: [o'] has them as [o] has. *)
Definition same_config (o o' : Optimizer) : Prop :=
  opt_name o' = opt_name o /\ x_init o' = x_init o
  /\ messages o' = messages o /\ max_f_eval o' = max_f_eval o
  /\ max_iters o' = max_iters o /\ bfgs_factor o' = bfgs_factor o
  /\ xtol o' = xtol o /\ gtol o' = gtol o /\ ftol o' = ftol o
  /\ model o' = model o /\ step_rate o' = step_rate o
  /\ decay o' = decay o /\ momentum o' = momentum o /\ time o' = time o.

(** As [same_config], but for the contents of the array [x_init]. *)
Definition same_settings (o o' : Optimizer) : Prop :=
  opt_name o' = opt_name o
  /\ messages o' = messages o /\ max_f_eval o' = max_f_eval o
  /\ max_iters o' = max_iters o /\ bfgs_factor o' = bfgs_factor o
  /\ xtol o' = xtol o /\ gtol o' = gtol o /\ ftol o' = ftol o
  /\ model o' = model o /\ step_rate o' = step_rate o
  /\ decay o' = decay o /\ momentum o' = momentum o /\ time o' = time o.

(** The arguments with [messages] and [max_f_eval] left out. *)
Definition drop_unread (kw : kwargs) : kwargs :=
  {| kw_messages := None; kw_model := kw_model kw; kw_max_f_eval := None;
     kw_max_iters := kw_max_iters kw; kw_ftol := kw_ftol kw;
     kw_gtol := kw_gtol kw; kw_xtol := kw_xtol kw;
     kw_bfgs_factor := kw_bfgs_factor kw; n_positional := n_positional kw |}.

(** What [run] promises when it returns: the status and the optimum are
    set. *)
Definition results_set_on_return (r : Optimizer * list event * outcome unit) :
    Prop :=
  match result r with
  | Returned _ => is_Some (status (final r)) /\ is_Some (x_opt (final r))
  | _ => True
  end.

End Adapter.

(** ** The scaled conjugate gradient minimizer

    The module [scg] that [optimization.py] imports [SCG] from is not among
    the sources; the adapters above take it from the environment.  What
    follows is the minimizer as section 4.1 of the specification describes
    it, over an arithmetic that is binary64 or the exact rationals. *)

Module SCGSpec.

Local Set Implicit Arguments.

(** Modelled from the spec: the arithmetic section 4.1 computes in.  The
    specification prescribes double precision; the interface lets the one
    minimizer below be read in binary64 and, for comparison, in exact
    rationals. *)
Record arith (R : Type) : Type := {
  n_zero : R;
  n_two : R;
  n_three_quarters : R;
  n_add : R -> R -> R;
  n_sub : R -> R -> R;
  n_mul : R -> R -> R;
  n_div : R -> R -> R;
  n_opp : R -> R;
  n_abs : R -> R;
  n_sqrt : R -> R;
  n_leb : R -> R -> bool;
  n_ltb : R -> R -> bool;
  n_eqb : R -> R -> bool
}.

(** IEEE 754 binary64, Rocq's primitive floats. *)
Definition binary64 : arith PrimFloat.float :=
  {| n_zero := 0%float;
     n_two := 2%float;
     n_three_quarters := 0.75%float;
     n_add := PrimFloat.add;
     n_sub := PrimFloat.sub;
     n_mul := PrimFloat.mul;
     n_div := PrimFloat.div;
     n_opp := PrimFloat.opp;
     n_abs := PrimFloat.abs;
     n_sqrt := PrimFloat.sqrt;
     n_leb := PrimFloat.leb;
     n_ltb := PrimFloat.ltb;
     n_eqb := PrimFloat.eqb |}.

(** Exact rationals; they have no square root, so one is supplied. *)
Definition rationals (sqrtQ : Q -> Q) : arith Q :=
  {| n_zero := 0%Q;
     n_two := 2%Q;
     n_three_quarters := (3 # 4)%Q;
     n_add := Qplus;
     n_sub := Qminus;
     n_mul := Qmult;
     n_div := Qdiv;
     n_opp := Qopp;
     n_abs := Qabs;
     n_sqrt := sqrtQ;
     n_leb := Qle_bool;
     n_ltb := fun a b => negb (Qle_bool b a);
     n_eqb := Qeq_bool |}.

(** Modelled from the spec: what section 4.1 names without fixing it.  The
    constants are given there by example only ("e.g. 1e-4", "e.g. 1.0"); the
    factors by which lambda is decreased and increased, and the rule that
    chooses between a restart and a conjugate direction, are not given. *)
Record policy (R : Type) : Type := {
  sigma0 : R;
  lambda0 : R;
  lambda_down : R -> R;
  lambda_up : R -> R;
  (** dimension, successful steps so far, old direction, old and new gradient *)
  next_direction : nat -> nat -> list R -> list R -> list R -> list R
}.

(** Modelled from the spec: the termination statuses section 4.1 names. *)
Inductive scg_status : Type :=
  | Converged
  | MaxFunctionEvaluationsReached
  | MaxIterationsReached.

(** Modelled from the spec: the variables of the iteration of section 4.1
    (step 1 names them), with the trace and the evaluation count.
    [s_kappa] is the curvature estimate of step 2a, which a pass after a
    rejected step uses again. *)
Record scg_state (R : Type) : Type := {
  s_x : list R;
  s_f0 : R;
  s_g0 : list R;
  s_d : list R;
  s_lambda : R;
  s_lambda_bar : R;
  s_kappa : R;
  s_success : bool;
  s_nsuccess : nat;
  s_trace : list R;
  s_funct_eval : Z
}.

(** Modelled from the spec: step 2c, the trial step, with what steps 2a and
    2b computed for it: the curvature estimate, the effective curvature, the
    new lambda and lambda_bar, and the evaluations spent. *)
Record trial (R : Type) : Type := {
  t_estimate : R;
  t_kappa : R;
  t_lambda : R;
  t_lambda_bar : R;
  t_evals : Z;
  t_alpha : R;
  t_x_new : list R;
  t_f_new : R;
  t_Delta : R
}.

(** What one pass of step 2 does. *)
Inductive pass (R : Type) : Type :=
  | Restart
  | Orthogonal
  | Step (t : trial R).
Arguments Restart {R}.
Arguments Orthogonal {R}.

Section Minimizer.
Context {R : Type}.
Variable A : arith R.
Variable P : policy R.
Variables (f : list R -> R) (fp : list R -> list R).
Variables (max_f_eval : option Z) (xtol ftol gtol : option R).

Declare Scope num_scope.
Local Notation "0" := (n_zero A) : num_scope.
Local Notation "2" := (n_two A) : num_scope.
Local Infix "+" := (n_add A) : num_scope.
Local Infix "-" := (n_sub A) : num_scope.
Local Infix "*" := (n_mul A) : num_scope.
Local Infix "/" := (n_div A) : num_scope.
Local Notation "- a" := (n_opp A a) : num_scope.
Local Infix "<=?" := (n_leb A) : num_scope.
Local Infix "<?" := (n_ltb A) : num_scope.
Local Infix "=?" := (n_eqb A) : num_scope.
Local Open Scope num_scope.

Definition vadd (u v : list R) : list R :=
  map (fun p : R * R => p.1 + p.2) (combine u v).

Definition vsub (u v : list R) : list R :=
  map (fun p : R * R => p.1 - p.2) (combine u v).

Definition vscale (a : R) (v : list R) : list R :=
  map (fun b : R => a * b) v.

Definition vneg (v : list R) : list R :=
  map (fun b : R => - b) v.

Definition vdot (u v : list R) : R :=
  fold_right (n_add A) 0 (map (fun p : R * R => p.1 * p.2) (combine u v)).

Definition norm (v : list R) : R := n_sqrt A (vdot v v).

(** Modelled from the spec: step 1 of section 4.1. *)
Definition scg_init (x0 : list R) : scg_state R :=
  let f0 := f x0 in
  let g0 := fp x0 in
  {| s_x := x0; s_f0 := f0; s_g0 := g0; s_d := vneg g0;
     s_lambda := lambda0 P; s_lambda_bar := 0; s_kappa := 0;
     s_success := true; s_nsuccess := 0%nat; s_trace := [f0];
     s_funct_eval := 2%Z |}.

(** Modelled from the spec: the numeric policy's "immediate restart with
    d = -g". *)
Definition scg_restart (s : scg_state R) : scg_state R :=
  {| s_x := s_x s; s_f0 := s_f0 s; s_g0 := s_g0 s; s_d := vneg (s_g0 s);
     s_lambda := s_lambda s; s_lambda_bar := s_lambda_bar s;
     s_kappa := s_kappa s; s_success := true; s_nsuccess := s_nsuccess s;
     s_trace := s_trace s; s_funct_eval := s_funct_eval s |}.

(** Modelled from the spec: step 2a, the curvature estimate and the gradient
    evaluations it costs; after a rejected step the previous estimate. *)
Definition scg_estimate (s : scg_state R) : R * Z :=
  if s_success s
  then let d := s_d s in
       let sigma := sigma0 P / norm d in
       let g_plus := fp (vadd (s_x s) (vscale sigma d)) in
       (vdot d (vsub g_plus (s_g0 s)) / sigma, 1%Z)
  else (s_kappa s, 0%Z).

(** Modelled from the spec: step 2b on the estimate [kappa], with the
    current lambda: the effective curvature, the new lambda and
    lambda_bar. *)
Definition scg_regularize (s : scg_state R) (kappa : R) : R * R * R :=
  let n := norm (s_d s) in
  if kappa <=? 0
  then let lambda_bar := 2 * (s_lambda s - kappa / (n * n)) in
       (kappa + lambda_bar * (n * n), lambda_bar, lambda_bar)
  else (kappa, s_lambda s, s_lambda_bar s).

(** Modelled from the spec: steps 2a to 2c. *)
Definition scg_trial (s : scg_state R) : trial R :=
  let '(estimate, evals) := scg_estimate s in
  let '(kappa, lambda, lambda_bar) := scg_regularize s estimate in
  let d := s_d s in
  let dg := vdot d (s_g0 s) in
  let alpha := - dg / kappa in
  let x_new := vadd (s_x s) (vscale alpha d) in
  let f_new := f x_new in
  {| t_estimate := estimate; t_kappa := kappa; t_lambda := lambda;
     t_lambda_bar := lambda_bar; t_evals := (evals + 1)%Z;
     t_alpha := alpha; t_x_new := x_new; t_f_new := f_new;
     t_Delta := 2 * (s_f0 s - f_new) * kappa / (dg * dg) |}.

(** Modelled from the spec: the step-acceptance rule of steps 2d and 2e,
    [Delta >= 0]. *)
Definition accepted (t : trial R) : bool := 0 <=? t_Delta t.

(** Modelled from the spec: step 2d, committing an accepted trial step. *)
Definition scg_accept (s : scg_state R) (t : trial R) : scg_state R :=
  let g_new := fp (t_x_new t) in
  let nsuccess := S (s_nsuccess s) in
  {| s_x := t_x_new t;
     s_f0 := t_f_new t;
     s_g0 := g_new;
     s_d := next_direction P (length (s_x s)) nsuccess (s_d s) (s_g0 s) g_new;
     s_lambda := if n_three_quarters A <=? t_Delta t
                 then lambda_down P (t_lambda t) else t_lambda t;
     s_lambda_bar := t_lambda_bar t;
     s_kappa := t_estimate t;
     s_success := true;
     s_nsuccess := nsuccess;
     s_trace := (s_trace s ++ [t_f_new t])%list;
     s_funct_eval := (s_funct_eval s + t_evals t + 1)%Z |}.

(** Modelled from the spec: step 2e, a rejected trial step: [x] stays,
    lambda grows, and the next pass skips step 2a and applies step 2b to
    the estimate kept here with the larger lambda. *)
Definition scg_reject (s : scg_state R) (t : trial R) : scg_state R :=
  {| s_x := s_x s;
     s_f0 := s_f0 s;
     s_g0 := s_g0 s;
     s_d := s_d s;
     s_lambda := lambda_up P (t_lambda t);
     s_lambda_bar := t_lambda_bar t;
     s_kappa := t_estimate t;
     s_success := false;
     s_nsuccess := s_nsuccess s;
     s_trace := s_trace s;
     s_funct_eval := (s_funct_eval s + t_evals t)%Z |}.

(** [v < tol], for a tolerance that is provided *)
Definition below (v : R) (tol : option R) : bool :=
  match tol with
  | Some e => v <? e
  | None => false
  end.

(** Modelled from the spec: step 2f.  The step size and the change of the
    objective are those of the step just taken, so they are tested after an
    accepted step; the gradient norm and the budget after every step. *)
Definition scg_stop (s : scg_state R) (t : trial R) (s' : scg_state R) :
    option scg_status :=
  if accepted t
     && (below (n_abs A (t_alpha t) * norm (s_d s)) xtol
         || below (n_abs A (s_f0 s' - s_f0 s)) ftol)
  then Some Converged
  else if below (norm (s_g0 s')) gtol then Some Converged
  else match max_f_eval with
       | Some m => if (m <? s_funct_eval s')%Z
                   then Some MaxFunctionEvaluationsReached else None
       | None => None
       end.

(** Modelled from the spec: the guards of the numeric policy, each before
    the division it protects: a restart when [|d|] or the curvature is
    zero, a stop when the direction is orthogonal to the gradient. *)
Definition scg_pass (s : scg_state R) : pass R :=
  if norm (s_d s) =? 0 then Restart
  else
    let t := scg_trial s in
    if t_kappa t =? 0 then Restart
    else if vdot (s_d s) (s_g0 s) =? 0 then Orthogonal
    else Step t.

(** Modelled from the spec: one iteration of step 2; the status is set when
    a stopping criterion fires. *)
Definition scg_step (s : scg_state R) : scg_state R * option scg_status :=
  match scg_pass s with
  | Restart => (scg_restart s, None)
  | Orthogonal => (s, Some Converged)
  | Step t =>
      let s' := if accepted t then scg_accept s t else scg_reject s t in
      (s', scg_stop s t s')
  end.

(** Modelled from the spec: step 2's loop, at most [iters] iterations. *)
Fixpoint scg_loop (iters : nat) (s : scg_state R) :
    scg_state R * scg_status :=
  match iters with
  | O => (s, MaxIterationsReached)
  | S iters' =>
      match scg_step s with
      | (s', Some st) => (s', st)
      | (s', None) => scg_loop iters' s'
      end
  end.

(** Modelled from the spec: [scg_minimize], returning
    [(x_opt, trace, funct_eval, status)]. *)
Definition scg_minimize (x0 : list R) (max_iters : nat) :
    list R * list R * Z * scg_status :=
  let '(s, st) := scg_loop max_iters (scg_init x0) in
  (s_x s, s_trace s, s_funct_eval s, st).

(** The states the iteration passes through. *)
Inductive reachable (x0 : list R) : scg_state R -> Prop :=
  | reach_init : reachable x0 (scg_init x0)
  | reach_step (s : scg_state R) :
      reachable x0 s -> (scg_step s).2 = None -> reachable x0 (scg_step s).1.

End Minimizer.

(** A sequence of objective values that never goes up, for the order [le]. *)
Fixpoint nonincreasing {R : Type} (le : R -> R -> Prop) (l : list R) : Prop :=
  match l with
  | [] => True
  | a :: l' =>
      match l' with
      | [] => True
      | b :: _ => le b a
      end /\ nonincreasing le l'
  end.

(** The order of binary64, as the comparison [<=] of the floats decides it. *)
Definition le64 (a b : PrimFloat.float) : Prop := PrimFloat.leb a b = true.

(** In exact arithmetic: the regularization scalar starts positive and
    stays positive under the two updates the specification leaves open. *)
Record policy_ok (P : policy Q) : Prop := {
  lambda0_pos : (0 < lambda0 P)%Q;
  lambda_down_pos : forall l : Q, (0 < l)%Q -> (0 < lambda_down P l)%Q;
  lambda_up_pos : forall l : Q, (0 < l)%Q -> (0 < lambda_up P l)%Q
}.

(** What the iteration maintains in exact arithmetic: lambda is positive,
    [f0] is the objective at [x] and the last entry of the trace, which
    never goes up. *)
Record inv (f : list Q -> Q) (s : scg_state Q) : Prop := {
  inv_lambda : (0 < s_lambda s)%Q;
  inv_f0 : s_f0 s = f (s_x s);
  inv_last : last (s_trace s) = Some (s_f0 s);
  inv_trace : nonincreasing Qle (s_trace s)
}.

(** *** Concrete policies and objectives *)

(** A rational square root, to six decimals. *)
Definition sqrt6 (q : Q) : Q :=
  Z.sqrt (Qnum q * 10 ^ 12 / Zpos (Qden q)) # 10 ^ 6.

Definition demo_policy : policy Q :=
  {| sigma0 := (1 # 10000)%Q;
     lambda0 := 1%Q;
     lambda_down := fun l => Qred (l * (1 # 4));
     lambda_up := fun l => Qred (l * 4);
     next_direction := fun _ _ _ _ g_new => vneg (rationals sqrt6) g_new |}.

(** The specification's test objective [f(x) = (x1-3)^2 + (x2+1)^2] and its
    gradient. *)
Definition demo_f (x : list Q) : Q :=
  match x with
  | [x1; x2] => Qred ((x1 - 3) * (x1 - 3) + (x2 + 1) * (x2 + 1))
  | _ => 0%Q
  end.

Definition demo_fp (x : list Q) : list Q :=
  match x with
  | [x1; x2] => [Qred (2 * (x1 - 3)); Qred (2 * (x2 + 1))]
  | _ => []
  end.

(** The same choices in binary64, with [sigma0 = 2^-13]. *)
Definition policy64 : policy PrimFloat.float :=
  {| sigma0 := 0x1p-13%float;
     lambda0 := 1%float;
     lambda_down := fun l => (l / 4)%float;
     lambda_up := fun l => (l * 4)%float;
     next_direction := fun _ _ _ _ g_new => vneg binary64 g_new |}.

(** The convex objective [f(x) = 2^260 * |x|] in one dimension and its
    gradient [2^260 * sign(x)]. *)
Definition steep_f (x : list PrimFloat.float) : PrimFloat.float :=
  match x with
  | [x1] => (0x1p+260 * PrimFloat.abs x1)%float
  | _ => 0%float
  end.

Definition steep_fp (x : list PrimFloat.float) : list PrimFloat.float :=
  match x with
  | [x1] => [if (x1 <? 0)%float then (-0x1p+260)%float else 0x1p+260%float]
  | _ => []
  end.

(** The start point [2^258 - 2^240]. *)
Definition steep_x0 : list PrimFloat.float := [(0x1p+258 - 0x1p+240)%float].

End SCGSpec.

(** ** A concrete environment

    Stand-ins for the backends, enough to run the adapters on concrete
    inputs: arrays and floats are rationals, each scipy minimizer returns
    its start point after one evaluation with the return code [rc], [SCG]
    is the minimizer above, and climin counts its iterations from 1 and
    lowers every coordinate by a thousandth at each. *)

Definition status_string (st : SCGSpec.scg_status) : string :=
  match st with
  | SCGSpec.Converged => "Converged"
  | SCGSpec.MaxFunctionEvaluationsReached => "MaxFunctionEvaluationsReached"
  | SCGSpec.MaxIterationsReached => "MaxIterationsReached"
  end.

Definition demo_env (rc : Z) : Env :=
  {| vec := list Q;
     float := Q;
     grad := list Q;
     modelT := unit;
     datetime := Z;
     str_timedelta := fun end_ start => pretty (end_ - start);
     format_3f := fun q => pretty (Qnum q * 1000 / Zpos (Qden q));
     fmin_tnc := fun _ x0 _ _ _ => (x0, 1, rc);
     fmin_l_bfgs_b := fun f_fp x0 _ _ _ =>
       (x0, (f_fp x0).1,
        {| funcalls := 1; warnflag := rc; task := "ABNORMAL_TERMINATION_IN_LNSRCH" |});
     fmin := fun f x0 _ _ _ => (x0, f x0, 0, 1, rc);
     SCG := fun f fp x0 _ maxiters max_f_eval xtol ftol gtol =>
       let '(x, flog, n, st) :=
         SCGSpec.scg_minimize (SCGSpec.rationals SCGSpec.sqrt6)
           SCGSpec.demo_policy f fp (Some max_f_eval)
           xtol ftol gtol x0 (Z.to_nat maxiters) in
       (x, flog, n, status_string st);
     climin_Adadelta := fun x0 _ _ _ _ =>
       {| info_n_iter := fun k => Z.of_nat k + 1;
          wrt := fun k => map (fun q => Qred (q - (Z.of_nat (S k) # 1000))) x0 |} |}.

(** The combined callback for the specification's test objective. *)
Definition demo_f_fp (x : list Q) : Q * list Q :=
  (SCGSpec.demo_f x, SCGSpec.demo_fp x).

(** * Properties *)

(** ** Strings: what [find] decides *)

Module StrFacts.
Import Str.

Lemma startswith_app (sub post : string) : startswith (sub +:+ post) sub = true.
Proof.
  induction sub as [|c sub IH]; simpl; [reflexivity|].
  rewrite Ascii.eqb_refl. exact IH.
Qed.

Lemma startswith_inv (s sub : string) :
  startswith s sub = true -> exists post : string, s = sub +:+ post.
Proof.
  revert s. induction sub as [|b sub IH]; intros s H; simpl in *.
  - exists s. reflexivity.
  - destruct s as [|a s]; [discriminate|].
    destruct (Ascii.eqb a b) eqn:Hab; [|discriminate].
    apply Ascii.eqb_eq in Hab. subst b.
    destruct (IH s H) as [post ->]. exists post. reflexivity.
Qed.

Lemma occurs_here (s sub : string) : startswith s sub = true -> occurs sub s.
Proof.
  intros H. destruct (startswith_inv s sub H) as [post ->].
  exists EmptyString, post. reflexivity.
Qed.

Lemma occurs_tail (a : ascii) (s sub : string) :
  startswith (String a s) sub = false ->
  occurs sub (String a s) -> occurs sub s.
Proof.
  intros Hno (pre & post & Heq).
  destruct pre as [|c pre].
  - change (String a s = sub +:+ post) in Heq.
    rewrite Heq, startswith_app in Hno. discriminate.
  - injection Heq as _ ->. exists pre, post. reflexivity.
Qed.

Lemma find_from_lower_bound (s sub : string) (i : Z) :
  find_from s sub i = -1 \/ i <= find_from s sub i.
Proof.
  revert i. induction s as [|a s IH]; intros i; simpl.
  - destruct sub; simpl; lia.
  - destruct (startswith (String a s) sub); [lia|].
    destruct (IH (i + 1)); lia.
Qed.

Lemma find_from_found (s sub : string) (i : Z) :
  0 <= i -> (find_from s sub i <> -1 <-> occurs sub s).
Proof.
  revert i. induction s as [|a s IH]; intros i Hi.
  - simpl. destruct (startswith "" sub) eqn:Hs.
    + split; [intros _; now apply occurs_here | lia].
    + split; [congruence|].
      intros (pre & post & Heq). exfalso.
      destruct pre; [|discriminate]. simpl in Heq.
      destruct sub; [discriminate Hs | discriminate Heq].
  - cbn [find_from]. destruct (startswith (String a s) sub) eqn:Hs.
    + split; [intros _; now apply occurs_here | lia].
    + rewrite (IH (i + 1)) by lia. split.
      * intros (pre & post & ->). exists (String a pre), post. reflexivity.
      * now apply occurs_tail.
Qed.

(** [key.lower().find(name.lower()) != -1] is case-insensitive containment. *)
Lemma find_contains_ci (key name : string) :
  negb (find (lower key) (lower name) =? -1) = true <-> contains_ci key name.
Proof.
  unfold contains_ci, find.
  rewrite <- (find_from_found (lower key) (lower name) 0) by lia.
  rewrite negb_true_iff, Z.eqb_neq. reflexivity.
Qed.

Lemma find_not_contains_ci (key name : string) :
  negb (find (lower key) (lower name) =? -1) = false <-> ~ contains_ci key name.
Proof.
  rewrite <- find_contains_ci.
  destruct (negb _); split; congruence.
Qed.

End StrFacts.

(** ** The registry *)

Section Registry.
Context {V : Type}.
Implicit Types (d l : list (string * V)) (name : string).

(** The loop over the keys of [l], when looking a key of [l] up in [d] gives
    the value [l] pairs it with. *)
Lemma get_optimizer_loop_spec d l name :
  Forall (fun kc : string * V => dict_getitem d kc.1 = inr kc.2) l ->
  match get_optimizer_loop d (dict_keys l) name with
  | inr cls => exists key : string, first_match name l key cls
  | inl e =>
      e = KeyError ("No optimizer was found matching the name: " +:+ name)
      /\ no_match name l
  end.
Proof.
  induction 1 as [|[key cls] l Hhd Htl IH]; simpl.
  - split; [reflexivity | constructor].
  - destruct (negb _) eqn:Hfind.
    + apply StrFacts.find_contains_ci in Hfind.
      simpl in Hhd. rewrite Hhd.
      exists key, [], l. repeat split; [assumption | constructor].
    + apply StrFacts.find_not_contains_ci in Hfind.
      fold (dict_keys l).
      destruct (get_optimizer_loop d (dict_keys l) name) as [e|c].
      * destruct IH as [-> Hno]. split; [reflexivity|].
        constructor; assumption.
      * destruct IH as (k & before & after & -> & Hk & Hno).
        exists k, ((key, cls) :: before), after.
        repeat split; [assumption|]. constructor; assumption.
Qed.

Lemma first_match_unique name l key1 cls1 key2 cls2 :
  first_match name l key1 cls1 -> first_match name l key2 cls2 ->
  key1 = key2 /\ cls1 = cls2.
Proof.
  intros (b1 & a1 & -> & H1 & N1). revert b1 N1.
  induction b1 as [|x b1 IH]; intros N1 (b2 & a2 & Heq & H2 & N2).
  - destruct b2 as [|y b2]; simpl in Heq.
    + injection Heq as -> -> _. split; reflexivity.
    + injection Heq as <- _. inversion N2; subst. simpl in *. contradiction.
  - destruct b2 as [|y b2]; simpl in Heq.
    + injection Heq as -> _. inversion N1; subst. simpl in *. contradiction.
    + injection Heq as <- Heq. inversion N1; inversion N2; subst.
      apply IH; [assumption|]. exists b2, a2. repeat split; assumption.
Qed.

Lemma first_match_exists name l :
  (exists key cls, first_match name l key cls)
  <-> exists key cls, In (key, cls) l /\ Str.contains_ci key name.
Proof.
  split.
  - intros (key & cls & before & after & -> & Hk & _).
    exists key, cls. split; [|assumption].
    apply in_or_app. right. left. reflexivity.
  - intros (key & cls & Hin & Hk).
    induction l as [|[k c] l IH]; [destruct Hin|].
    destruct (negb (Str.find (Str.lower k) (Str.lower name) =? -1)) eqn:Hf.
    + apply StrFacts.find_contains_ci in Hf.
      exists k, c, [], l. repeat split; [assumption | constructor].
    + apply StrFacts.find_not_contains_ci in Hf.
      destruct Hin as [Heq|Hin].
      * injection Heq as -> ->. contradiction.
      * destruct (IH Hin) as (k' & c' & before & after & -> & Hk' & Hno).
        exists k', c', ((k, c) :: before), after.
        repeat split; [assumption|]. constructor; assumption.
Qed.

End Registry.

Lemma optimizers_getitem :
  Forall (fun kc : string * optimizer_class =>
            dict_getitem optimizers kc.1 = inr kc.2) optimizers.
Proof. repeat constructor. Qed.

(** C4: the lookup succeeds exactly when some registered key contains the
    query case-insensitively; what it returns is the class registered under
    the first such key; and ["LBFGSB"] and ["lbfgsb"] give the same class. *)
Theorem get_optimizer_first_match (name : string) :
  ((exists cls, get_optimizer name = inr cls)
   <-> exists key cls, In (key, cls) optimizers /\ Str.contains_ci key name)
  /\ (forall cls, get_optimizer name = inr cls
      <-> exists key, first_match name optimizers key cls)
  /\ get_optimizer "LBFGSB" = inr opt_lbfgsb
  /\ get_optimizer "lbfgsb" = get_optimizer "LBFGSB".
Proof.
  pose proof (get_optimizer_loop_spec optimizers optimizers name
                optimizers_getitem) as Hspec.
  fold (get_optimizer name) in Hspec.
  assert (Hret : forall cls, get_optimizer name = inr cls
                 <-> exists key, first_match name optimizers key cls).
  { intros cls. split.
    - intros Heq. rewrite Heq in Hspec. exact Hspec.
    - intros [key Hfm]. destruct (get_optimizer name) as [e|c].
      + exfalso. destruct Hspec as [_ Hno].
        destruct Hfm as (before & after & Heq & Hk & _).
        rewrite Heq in Hno. apply Forall_app in Hno as [_ Hno].
        inversion Hno; subst. simpl in *. contradiction.
      + destruct Hspec as [key' Hfm'].
        destruct (first_match_unique _ _ _ _ _ _ Hfm Hfm') as [_ ->].
        reflexivity. }
  split; [|split; [exact Hret | split; reflexivity]].
  rewrite <- first_match_exists. split.
  - intros [cls Heq]. apply Hret in Heq as [key Hfm]. eauto.
  - intros (key & cls & Hfm). exists cls. apply Hret. eauto.
Qed.

(** C8: a query that no registered key contains (case-insensitively, as the
    lookup compares) raises the [KeyError] "No optimizer was found matching
    the name: ..." instead of returning a class. *)
Theorem get_optimizer_no_match (name : string) :
  (forall key cls, In (key, cls) optimizers -> ~ Str.contains_ci key name) ->
  get_optimizer name
  = inl (KeyError ("No optimizer was found matching the name: " +:+ name)).
Proof.
  intros Hno.
  pose proof (get_optimizer_loop_spec optimizers optimizers name
                optimizers_getitem) as Hspec.
  fold (get_optimizer name) in Hspec.
  destruct (get_optimizer name) as [e|c].
  - destruct Hspec as [-> _]. reflexivity.
  - exfalso. destruct Hspec as (key & before & after & Heq & Hk & _).
    apply (Hno key c); [|assumption].
    rewrite Heq. apply in_or_app. right. left. reflexivity.
Qed.

Lemma get_optimizer_doesnotexist :
  get_optimizer "doesnotexist"
  = inl (KeyError "No optimizer was found matching the name: doesnotexist").
Proof.
  apply (get_optimizer_no_match "doesnotexist").
  intros key cls Hin. apply StrFacts.find_not_contains_ci.
  simpl in Hin.
  repeat (destruct Hin as [Heq|Hin]; [injection Heq as <- <-; reflexivity|]).
  destruct Hin.
Defined.

(** ** The adapters *)

Section AdapterFacts.
Context {E : Env}.
Implicit Types (self o : Optimizer) (kw : kwargs) (x : vec).
Implicit Types (f_fp : vec -> float * grad) (f : option (vec -> float)).
Implicit Types (fp : option (vec -> grad)).

Ltac run_method :=
  unfold final, events, result, opt_tnc_opt, opt_lbfgsb_opt, opt_simplex_opt,
    opt_SCG_opt, py_assert, print_if, lift_exn, lookup_outcome, bind, emit,
    modify_self, get_self, ret, raise, lbfgsb_warnings, simplex_warnings,
    warning_if; cbn.

(** What a run of the TNC adapter does, in full. *)
Lemma opt_tnc_opt_run o f_fp f fp :
  let call := fmin_tnc f_fp (x_init o) (messages o) (max_f_eval o) (tnc_opts o) in
  let x := call.1.1 in
  let r := opt_tnc_opt (Some f_fp) f fp o in
  events r
  = [Ev_fmin_tnc (x_init o) (messages o) (max_f_eval o) (tnc_opts o); Ev_f_fp x]
  /\ result r = lookup_outcome tnc_rcstrings call.2
  /\ x_opt (final r) = Some x
  /\ f_opt (final r) = Some (f_fp x).1
  /\ funct_eval (final r) = Some call.1.2
  /\ status (final r)
     = match py_getitem tnc_rcstrings call.2 with
       | inr s => Some s
       | inl _ => status o
       end.
Proof.
  intros call x r. subst r x call. run_method. fold (tnc_opts o).
  destruct (py_getitem tnc_rcstrings _); cbn; repeat split; reflexivity.
Qed.

(** What a run of the L-BFGS-B adapter does, in full. *)
Lemma opt_lbfgsb_opt_run o f_fp f fp :
  let iprint := if messages o then 1 else -1 in
  let call :=
    fmin_l_bfgs_b f_fp (x_init o) iprint (max_iters o) (lbfgsb_opts o) in
  let x := call.1.1 in
  let r := opt_lbfgsb_opt (Some f_fp) f fp o in
  events r
  = (lbfgsb_warnings o
     ++ [Ev_fmin_l_bfgs_b (x_init o) iprint (max_iters o) (lbfgsb_opts o);
         Ev_f_fp x])%list
  /\ result r = lookup_outcome rcstrings (warnflag call.2)
  /\ x_opt (final r) = Some x
  /\ f_opt (final r) = Some (f_fp x).1
  /\ funct_eval (final r) = Some (funcalls call.2)
  /\ status (final r)
     = match py_getitem rcstrings (warnflag call.2) with
       | inr s => if warnflag call.2 =? 2
                  then Some ("Error" +:+ task call.2) else Some s
       | inl _ => status o
       end.
Proof.
  intros iprint call x r. subst r x call iprint. run_method.
  fold (lbfgsb_opts o).
  destruct (xtol o), (ftol o); cbn;
    destruct (py_getitem rcstrings _); cbn;
    try destruct (warnflag _ =? 2); cbn; repeat split; reflexivity.
Qed.

(** What a run of the simplex adapter does, in full, with [f] and without. *)
Lemma opt_simplex_opt_run o (g : option (vec -> float * grad))
    (f' : vec -> float) fp :
  let call := fmin f' (x_init o) (messages o) (max_f_eval o) (simplex_opts o) in
  let r := opt_simplex_opt g (Some f') fp o in
  events r
  = (simplex_warnings o
     ++ [Ev_fmin (x_init o) (messages o) (max_f_eval o) (simplex_opts o)])%list
  /\ result r = lookup_outcome statuses call.2
  /\ x_opt (final r) = Some call.1.1.1.1
  /\ f_opt (final r) = Some call.1.1.1.2
  /\ funct_eval (final r) = Some call.1.2.
Proof.
  intros call r. subst r call. run_method. fold (simplex_opts o).
  destruct (fmin _ _ _ _ _) as [[[[r0 r1] r2] r3] r4]; cbn.
  destruct (gtol o); cbn;
    destruct (py_getitem statuses _); cbn; repeat split; reflexivity.
Qed.

Lemma opt_simplex_opt_none o (g : option (vec -> float * grad)) fp :
  opt_simplex_opt g None fp o
  = (o,
     (simplex_warnings o
      ++ [Ev_fmin (x_init o) (messages o) (max_f_eval o) (simplex_opts o)])%list,
     Raised TypeError).
Proof.
  run_method. fold (simplex_opts o). destruct (gtol o); reflexivity.
Qed.

(** [l[i]] raises exactly outside [-len(l) <= i < len(l)]. *)
Lemma py_getitem_raises {A : Type} (l : list A) (i : Z) :
  (exists e, py_getitem l i = inl e)
  <-> (i < - Z.of_nat (length l) \/ Z.of_nat (length l) <= i).
Proof.
  unfold py_getitem.
  destruct (i <? 0) eqn:Hneg;
    [apply Z.ltb_lt in Hneg | apply Z.ltb_ge in Hneg];
    (destruct (_ && _) eqn:Hin;
     [ apply andb_true_iff in Hin as [H1%Z.leb_le H2%Z.ltb_lt];
       destruct (l !! _) as [a|] eqn:Hl;
       [ split; [intros [e He]; discriminate | lia]
       | apply lookup_ge_None in Hl; lia ]
     | apply andb_false_iff in Hin as [H1%Z.leb_gt | H2%Z.ltb_ge];
       (split; [intros _; lia | eauto]) ]).
Qed.

(** An index in [-len(l) <= i < 0] reads from the end. *)
Lemma py_getitem_negative {A : Type} (l : list A) (i : Z) :
  - Z.of_nat (length l) <= i < 0 ->
  exists a, py_getitem l i = inr a
            /\ l !! Z.to_nat (i + Z.of_nat (length l)) = Some a.
Proof.
  intros Hi. unfold py_getitem.
  replace (i <? 0) with true by (symmetry; apply Z.ltb_lt; lia).
  replace (_ && _) with true
    by (symmetry; apply andb_true_iff; split;
        [apply Z.leb_le | apply Z.ltb_lt]; lia).
  destruct (l !! _) as [a|] eqn:Hl; [eauto|].
  apply lookup_ge_None in Hl. lia.
Qed.

(** ** Construction *)

(** C1: the constructor stores [int(max_iters)] in [max_f_eval], whatever
    the [max_f_eval] argument is: with [max_f_eval=5] and [max_iters] left
    at its default the stored budget is 1000, which is what TNC receives as
    [maxfun]; with nothing supplied it is 1000, not 10000; and L-BFGS-B
    receives [max_iters] as [maxfun]. *)
Theorem Optimizer_init_max_f_eval_is_max_iters x kw f_fp :
  max_f_eval (Optimizer_init x kw)
  = py_int (default (PyFloat (1000 # 1)) (kw_max_iters kw))
  /\ max_f_eval (Optimizer_init x no_kwargs) = 1000
  /\ max_f_eval (opt_tnc_init x (only_max_f_eval (PyInt 5))) = 1000
  /\ In (Ev_fmin_tnc x false 1000 ∅)
        (events (opt_tnc_opt (Some f_fp) None None
                   (opt_tnc_init x (only_max_f_eval (PyInt 5)))))
  /\ In (Ev_fmin_l_bfgs_b x (-1)
           (py_int (default (PyFloat (1000 # 1)) (kw_max_iters kw)))
           (lbfgsb_opts (opt_lbfgsb_init x kw)))
        (events (opt_lbfgsb_opt (Some f_fp) None None
                   (opt_lbfgsb_init x kw))).
Proof.
  repeat split.
  - destruct (opt_tnc_opt_run
                (opt_tnc_init x (only_max_f_eval (PyInt 5))) f_fp None None)
      as [-> _]. left. reflexivity.
  - destruct (opt_lbfgsb_opt_run (opt_lbfgsb_init x kw) f_fp None None)
      as [-> _]. apply in_or_app. right. left. reflexivity.
Qed.

(** C9: whatever [messages] argument is supplied, every constructor stores
    [False], and every backend call of a run on the constructed object is
    made with progress output disabled ([messages=False], [iprint=-1],
    [disp=False], [display=False]). *)
Theorem messages_forced_off x kw (sr dc mo : option pynum)
    (g : option (vec -> float * grad)) f fp (fuel : nat) :
  messages (Optimizer_init x kw) = false
  /\ messages (opt_tnc_init x kw) = false
  /\ messages (opt_lbfgsb_init x kw) = false
  /\ messages (opt_simplex_init x kw) = false
  /\ messages (opt_SCG_init x kw).2 = false
  /\ messages (Opt_Adadelta_init sr dc mo x kw) = false
  /\ Forall quiet (events (opt_tnc_opt g f fp (opt_tnc_init x kw)))
  /\ Forall quiet (events (opt_lbfgsb_opt g f fp (opt_lbfgsb_init x kw)))
  /\ Forall quiet (events (opt_simplex_opt g f fp (opt_simplex_init x kw)))
  /\ Forall quiet (events (opt_SCG_opt g f fp (opt_SCG_init x kw).2))
  /\ Forall quiet (events (Opt_Adadelta_opt fuel g f fp
                             (Opt_Adadelta_init sr dc mo x kw))).
Proof.
  repeat (split; [reflexivity|]).
  split; [|split; [|split; [|split]]].
  - destruct g as [f_fp|]; [|constructor].
    destruct (opt_tnc_opt_run (opt_tnc_init x kw) f_fp f fp) as [-> _].
    repeat constructor.
  - destruct g as [f_fp|]; [|constructor].
    destruct (opt_lbfgsb_opt_run (opt_lbfgsb_init x kw) f_fp f fp) as [-> _].
    apply Forall_app. split.
    + unfold lbfgsb_warnings, warning_if.
      destruct (xtol _), (ftol _); repeat constructor.
    + repeat constructor.
  - assert (Hev : events (opt_simplex_opt g f fp (opt_simplex_init x kw))
                  = (simplex_warnings (opt_simplex_init x kw)
                     ++ [Ev_fmin (x_init (opt_simplex_init x kw))
                           (messages (opt_simplex_init x kw))
                           (max_f_eval (opt_simplex_init x kw))
                           (simplex_opts (opt_simplex_init x kw))])%list).
    { destruct f as [f'|].
      - apply (opt_simplex_opt_run (opt_simplex_init x kw) g f' fp).
      - rewrite opt_simplex_opt_none. reflexivity. }
    rewrite Hev. apply Forall_app. split.
    + unfold simplex_warnings, warning_if.
      destruct (gtol _); repeat constructor.
    + repeat constructor.
  - destruct f as [f|]; [|constructor].
    destruct fp as [fp|]; [|constructor].
    run_method.
    destruct (SCG _ _ _ _ _ _ _ _ _) as [[[r0 r1] r2] r3]; cbn.
    destruct (py_getitem r1 (-1)); cbn; repeat constructor.
  - destruct fp as [fp|]; [|constructor].
    unfold events, Opt_Adadelta_opt, py_assert, getattr, bind, emit,
      modify_self, get_self, ret, raise; cbn.
    destruct (adadelta_loop _ _ _ _); cbn; repeat constructor.
Qed.

(** ** Preconditions *)

(** C5: L-BFGS-B invoked without [f_fp], and SCG invoked without [fp],
    raise an [AssertionError]; nothing has happened before it: no backend
    call, no warning, no change of the object. *)
Theorem missing_gradient_callback_raises o
    (g : option (vec -> float * grad)) f fp :
  opt_lbfgsb_opt None f fp o
  = (o, [], Raised (AssertionError "BFGS requires f_fp"))
  /\ opt_SCG_opt g f None o = (o, [], Raised (AssertionError "")).
Proof.
  split; [reflexivity|]. destruct f; reflexivity.
Qed.

(** ** Options and results *)

Lemma lbfgsb_opts_dom o :
  dom (lbfgsb_opts o) ⊆ ({["pgtol"; "factr"]} : gset string).
Proof.
  unfold lbfgsb_opts, dict_set_if.
  destruct (bfgs_factor o), (gtol o);
    rewrite ?dom_insert_L, ?dom_empty_L; set_unfold; intuition auto.
Qed.

Lemma simplex_opts_dom o :
  dom (simplex_opts o) ⊆ ({["xtol"; "ftol"]} : gset string).
Proof.
  unfold simplex_opts, dict_set_if.
  destruct (ftol o), (xtol o);
    rewrite ?dom_insert_L, ?dom_empty_L; set_unfold; intuition auto.
Qed.

Lemma lbfgsb_opts_lookup o :
  lbfgsb_opts o !! "pgtol" = gtol o
  /\ lbfgsb_opts o !! "factr" = bfgs_factor o
  /\ forall key : string,
       key <> "pgtol" -> key <> "factr" -> lbfgsb_opts o !! key = None.
Proof.
  unfold lbfgsb_opts, dict_set_if.
  destruct (gtol o), (bfgs_factor o); repeat split;
    try (intros key H1 H2); by simplify_map_eq.
Qed.

Lemma simplex_opts_lookup o :
  simplex_opts o !! "xtol" = xtol o
  /\ simplex_opts o !! "ftol" = ftol o
  /\ forall key : string,
       key <> "xtol" -> key <> "ftol" -> simplex_opts o !! key = None.
Proof.
  unfold simplex_opts, dict_set_if.
  destruct (xtol o), (ftol o); repeat split;
    try (intros key H1 H2); by simplify_map_eq.
Qed.

(** C6: an [xtol] or [ftol] given to L-BFGS-B, or a [gtol] given to the
    simplex adapter, only adds its warning in front of what the run does
    without it.  The backend is called once, with the options [opts] that
    hold exactly the remaining ones: for L-BFGS-B [gtol] under ["pgtol"],
    [bfgs_factor] under ["factr"] and no other key; for the simplex [xtol]
    and [ftol] and no other key.  The run ends as the status lookup on the
    result of that call ends (for the simplex without [f], as the call
    ends), so the unsupported tolerance makes no run fail, and the object is
    left as without it, up to the field itself. *)
Theorem unsupported_tolerance_ignored o f_fp
    (g : option (vec -> float * grad)) f fp (xt ft gt : option float) :
  let lb1 := opt_lbfgsb_opt (Some f_fp) f fp (with_tols xt ft (gtol o) o) in
  let lb0 := opt_lbfgsb_opt (Some f_fp) f fp (with_tols None None (gtol o) o) in
  let iprint := if messages o then 1 else -1 in
  let sx1 := opt_simplex_opt g f fp (with_tols (xtol o) (ftol o) gt o) in
  let sx0 := opt_simplex_opt g f fp (with_tols (xtol o) (ftol o) None o) in
  (events lb1
   = (warning_if xt
        "WARNING: l-bfgs-b doesn't have an xtol arg, so I'm going to ignore it"
      ++ warning_if ft
        "WARNING: l-bfgs-b doesn't have an ftol arg, so I'm going to ignore it"
      ++ events lb0)%list
   /\ (exists opts : gmap string float,
         events lb0
         = [Ev_fmin_l_bfgs_b (x_init o) iprint (max_iters o) opts;
            Ev_f_fp
              (fmin_l_bfgs_b f_fp (x_init o) iprint (max_iters o) opts).1.1]
         /\ opts !! "pgtol" = gtol o
         /\ opts !! "factr" = bfgs_factor o
         /\ (forall key : string,
               key <> "pgtol" -> key <> "factr" -> opts !! key = None)
         /\ result lb1
            = lookup_outcome rcstrings
                (warnflag
                   (fmin_l_bfgs_b f_fp (x_init o) iprint (max_iters o)
                      opts).2))
   /\ result lb1 = result lb0
   /\ final lb1 = with_tols xt ft (gtol o) (final lb0))
  /\ (events sx1
      = (warning_if gt
           "WARNING: simplex doesn't have an gtol arg, so I'm going to ignore it"
         ++ events sx0)%list
      /\ (exists opts : gmap string float,
            events sx0
            = [Ev_fmin (x_init o) (messages o) (max_f_eval o) opts]
            /\ opts !! "xtol" = xtol o
            /\ opts !! "ftol" = ftol o
            /\ (forall key : string,
                  key <> "xtol" -> key <> "ftol" -> opts !! key = None)
            /\ result sx1
               = match f with
                 | Some f' =>
                     lookup_outcome statuses
                       (fmin f' (x_init o) (messages o) (max_f_eval o) opts).2
                 | None => Raised TypeError
                 end)
      /\ result sx1 = result sx0
      /\ final sx1 = with_tols (xtol o) (ftol o) gt (final sx0)).
Proof.
  intros lb1 lb0 iprint sx1 sx0. split.
  - pose proof (opt_lbfgsb_opt_run (with_tols None None (gtol o) o) f_fp f fp)
      as (Hev0 & _).
    pose proof (opt_lbfgsb_opt_run (with_tols xt ft (gtol o) o) f_fp f fp)
      as (_ & Hres & _).
    cbn zeta in Hev0, Hres. fold lb0 in Hev0. fold lb1 in Hres.
    destruct (lbfgsb_opts_lookup o) as (Hpg & Hfa & Hno).
    split; [|split; [|split]].
    + subst lb1 lb0. run_method.
      destruct xt, ft; cbn;
        destruct (py_getitem rcstrings _); cbn;
        try destruct (warnflag _ =? 2); reflexivity.
    + exists (lbfgsb_opts o). repeat split; assumption.
    + subst lb1 lb0. run_method.
      destruct xt, ft; cbn;
        destruct (py_getitem rcstrings _); cbn;
        try destruct (warnflag _ =? 2); reflexivity.
    + subst lb1 lb0. run_method.
      destruct xt, ft; cbn;
        destruct (py_getitem rcstrings _); cbn;
        try destruct (warnflag _ =? 2); reflexivity.
  - destruct (simplex_opts_lookup o) as (Hx & Hf & Hno).
    destruct f as [f'|].
    + pose proof (opt_simplex_opt_run (with_tols (xtol o) (ftol o) None o)
                    g f' fp) as (Hev0 & _).
      pose proof (opt_simplex_opt_run (with_tols (xtol o) (ftol o) gt o)
                    g f' fp) as (_ & Hres & _).
      cbn zeta in Hev0, Hres. fold sx0 in Hev0. fold sx1 in Hres.
      split; [|split; [|split]].
      * subst sx1 sx0. run_method.
        destruct (fmin _ _ _ _ _) as [[[[r0 r1] r2] r3] r4]; cbn.
        destruct gt; cbn; destruct (py_getitem statuses _); reflexivity.
      * exists (simplex_opts o). repeat split; assumption.
      * subst sx1 sx0. run_method.
        destruct (fmin _ _ _ _ _) as [[[[r0 r1] r2] r3] r4]; cbn.
        destruct gt; cbn; destruct (py_getitem statuses _); reflexivity.
      * subst sx1 sx0. run_method.
        destruct (fmin _ _ _ _ _) as [[[[r0 r1] r2] r3] r4]; cbn.
        destruct gt; cbn; destruct (py_getitem statuses _); reflexivity.
    + subst sx1 sx0. rewrite !opt_simplex_opt_none.
      unfold events, result, final, simplex_warnings; cbn.
      split; [reflexivity|]. split; [|split; reflexivity].
      exists (simplex_opts o). repeat split; assumption.
Qed.

(** C7: after the TNC or the L-BFGS-B backend has returned [x], the adapter
    calls the caller's [f_fp] once more, at [x], and stores the first
    component of that call as [f_opt]; [x_opt] is [x].  The value L-BFGS-B
    reported itself is not used. *)
Theorem f_opt_recomputed_at_x_opt o f_fp f fp :
  let tnc := opt_tnc_opt (Some f_fp) f fp o in
  let x_tnc :=
    (fmin_tnc f_fp (x_init o) (messages o) (max_f_eval o) (tnc_opts o)).1.1 in
  let lb := opt_lbfgsb_opt (Some f_fp) f fp o in
  let iprint := if messages o then 1 else -1 in
  let x_lb :=
    (fmin_l_bfgs_b f_fp (x_init o) iprint (max_iters o) (lbfgsb_opts o)).1.1 in
  (x_opt (final tnc) = Some x_tnc
   /\ f_opt (final tnc) = Some (f_fp x_tnc).1
   /\ events tnc
      = [Ev_fmin_tnc (x_init o) (messages o) (max_f_eval o) (tnc_opts o);
         Ev_f_fp x_tnc])
  /\ (x_opt (final lb) = Some x_lb
      /\ f_opt (final lb) = Some (f_fp x_lb).1
      /\ events lb
         = (lbfgsb_warnings o
            ++ [Ev_fmin_l_bfgs_b (x_init o) iprint (max_iters o)
                  (lbfgsb_opts o);
                Ev_f_fp x_lb])%list).
Proof.
  intros tnc x_tnc lb iprint x_lb.
  destruct (opt_tnc_opt_run o f_fp f fp) as (H1 & _ & H2 & H3 & _).
  destruct (opt_lbfgsb_opt_run o f_fp f fp) as (H4 & _ & H5 & H6 & _).
  repeat split; assumption.
Qed.

(** ** Adadelta *)

Lemma adadelta_loop_breaks (opt : climin_opt vec) (m : Z) (fuel k j : nat) :
  adadelta_loop fuel opt m k = Some j ->
  (k <= j)%nat /\ m <= info_n_iter opt j
  /\ forall i : nat, (k <= i < j)%nat -> info_n_iter opt i < m.
Proof.
  revert k. induction fuel as [|fuel IH]; intros k; simpl; [discriminate|].
  destruct (m <=? info_n_iter opt k) eqn:Hm.
  - intros [= <-]. apply Z.leb_le in Hm. repeat split; [lia | assumption|].
    intros i Hi. lia.
  - intros Hj. apply Z.leb_gt in Hm.
    destruct (IH _ Hj) as (Hle & Hreach & Hbefore).
    repeat split; [lia | assumption|].
    intros i Hi. destruct (decide (i = k)) as [->|Hne]; [assumption|].
    apply Hbefore. lia.
Qed.

Lemma adadelta_loop_terminates (opt : climin_opt vec) (m : Z) (fuel k j : nat) :
  m <= info_n_iter opt j -> (k <= j < k + fuel)%nat ->
  exists j' : nat, adadelta_loop fuel opt m k = Some j' /\ (j' <= j)%nat.
Proof.
  intros Hj. revert k. induction fuel as [|fuel IH]; intros k Hk; [lia|].
  simpl. destruct (m <=? info_n_iter opt k) eqn:Hm.
  - exists k. split; [reflexivity | lia].
  - apply Z.leb_gt in Hm.
    assert (k <> j) by (intros ->; lia).
    apply IH. lia.
Qed.

Lemma adadelta_loop_fuel (opt : climin_opt vec) (m : Z) (fuel fuel' k j j' : nat) :
  adadelta_loop fuel opt m k = Some j ->
  adadelta_loop fuel' opt m k = Some j' -> j = j'.
Proof.
  intros H1 H2.
  destruct (adadelta_loop_breaks _ _ _ _ _ H1) as (_ & Hr1 & Hb1).
  destruct (adadelta_loop_breaks _ _ _ _ _ H2) as (Hk2 & Hr2 & Hb2).
  destruct (adadelta_loop_breaks _ _ _ _ _ H1) as (Hk1 & _ & _).
  destruct (lt_eq_lt_dec j j') as [[Hlt|Heq]|Hgt]; [|assumption|].
  - specialize (Hb2 j ltac:(lia)). lia.
  - specialize (Hb1 j' ltac:(lia)). lia.
Qed.

(** C10: when climin's iteration reaches [max_iters] (here at its [k]-th
    [info] at the latest), a run of the Adadelta adapter with enough fuel
    returns, and every run that returns leaves the constructed object with
    [x_opt] and [status] assigned and no other attribute assigned: [f_opt],
    [funct_eval] and [trace] are still [None], and the settings are as
    constructed.  The array [x_init] is bound to has been updated in place
    by climin, and [x_opt] is bound to that same array.  [__str__] then
    raises a [TypeError] at ["%.3f" % self.f_opt], also after [run] has set
    [time]. *)
Theorem adadelta_assigns_x_opt_and_status_only x kw (sr dc mo : option pynum)
    (g : option (vec -> float * grad)) f (fp : vec -> grad)
    (start end_ : datetime) (k : nat) :
  let self := Opt_Adadelta_init sr dc mo x kw in
  let opt :=
    climin_Adadelta x fp (default (PyFloat (1 # 10)) sr)
      (default (PyFloat (9 # 10)) dc) (default (PyInt 0) mo) in
  max_iters self <= info_n_iter opt k ->
  exists j : nat,
    let self' :=
      set_status (Some "maximum number of function evaluations exceeded ")
        (share_x_opt (move_x_init (wrt opt j) self)) in
    (j <= k)%nat
    /\ (forall fuel : nat, (k < fuel)%nat ->
          result (Opt_Adadelta_opt fuel g f (Some fp) self) = Returned tt)
    /\ (forall fuel : nat,
          result (Opt_Adadelta_opt fuel g f (Some fp) self) = Returned tt ->
          final (Opt_Adadelta_opt fuel g f (Some fp) self) = self'
          /\ final (Optimizer_run (Opt_Adadelta_opt fuel g f (Some fp))
                      start end_ self)
             = set_time (str_timedelta end_ start) self')
    /\ x_opt self' = Some (wrt opt j)
    /\ x_init self' = wrt opt j
    /\ x_opt_shares self' = true
    /\ status self'
       = Some "maximum number of function evaluations exceeded "
    /\ same_settings self self'
    /\ f_opt self' = None /\ funct_eval self' = None /\ trace self' = None
    /\ Optimizer_str self' = inl TypeError
    /\ Optimizer_str (set_time (str_timedelta end_ start) self') = inl TypeError.
Proof.
  intros self opt Hk.
  destruct (adadelta_loop_terminates opt (max_iters self) (S k) 0 k Hk
              ltac:(lia)) as (j & Hj & Hjk).
  exists j. cbn zeta. split; [exact Hjk|].
  assert (Hrun : forall fuel,
             Opt_Adadelta_opt fuel g f (Some fp) self
             = match adadelta_loop fuel opt (max_iters self) 0 with
               | Some i =>
                   (set_status
                      (Some "maximum number of function evaluations exceeded ")
                      (share_x_opt (move_x_init (wrt opt i) self)),
                    [Ev_climin_Adadelta x (default (PyFloat (1 # 10)) sr)
                       (default (PyFloat (9 # 10)) dc) (default (PyInt 0) mo)],
                    Returned tt)
               | None =>
                   (match fuel with
                    | O => self
                    | S n => move_x_init (wrt opt n) self
                    end,
                    [Ev_climin_Adadelta x (default (PyFloat (1 # 10)) sr)
                       (default (PyFloat (9 # 10)) dc) (default (PyInt 0) mo)],
                    OutOfFuel)
               end).
  { intros fuel.
    unfold Opt_Adadelta_opt, py_assert, getattr, bind, emit, modify_self,
      get_self, ret, raise; cbn.
    fold opt. change (py_int _) with (max_iters self).
    destruct (adadelta_loop fuel opt (max_iters self) 0); reflexivity. }
  split; [|split; [|repeat split]].
  - intros fuel Hfuel. rewrite Hrun.
    destruct (adadelta_loop_terminates opt (max_iters self) fuel 0 k Hk
                ltac:(lia)) as (j' & -> & _).
    reflexivity.
  - intros fuel. unfold Optimizer_run, bind, modify_self, final, result.
    rewrite Hrun.
    destruct (adadelta_loop fuel opt (max_iters self) 0) as [i|] eqn:Hi;
      [|discriminate].
    intros _. rewrite (adadelta_loop_fuel _ _ _ _ _ _ _ Hi Hj).
    split; reflexivity.
Qed.

(** ** Status codes *)

Lemma py_getitem_returns {A : Type} (l : list A) (i : Z) :
  (exists a, py_getitem l i = inr a)
  <-> - Z.of_nat (length l) <= i < Z.of_nat (length l).
Proof.
  pose proof (py_getitem_raises l i) as Hr.
  destruct (py_getitem l i) as [e|a] eqn:Hg.
  - split; [intros [a Ha]; discriminate|].
    intros Hi. assert (Hex : exists e', inl e = inl e' :> exn + A) by eauto.
    apply Hr in Hex. lia.
  - split; [|eauto]. intros _.
    destruct (Z_lt_dec i (- Z.of_nat (length l))) as [Hlo|Hlo];
      [|destruct (Z_le_dec (Z.of_nat (length l)) i) as [Hhi|Hhi]]; [| |lia].
    + destruct (proj2 Hr (or_introl Hlo)) as [e He]. discriminate.
    + destruct (proj2 Hr (or_intror Hhi)) as [e He]. discriminate.
Qed.

Lemma lookup_outcome_raises (table : list string) (code : Z) :
  lookup_outcome table code = Raised IndexError
  <-> (code < - Z.of_nat (length table) \/ Z.of_nat (length table) <= code).
Proof.
  unfold lookup_outcome. rewrite <- py_getitem_raises.
  destruct (py_getitem table code) as [e|a] eqn:Hg.
  - unfold py_getitem in Hg.
    destruct (_ && _); [destruct (table !! _)|]; try discriminate;
      injection Hg as <-; split; eauto.
  - split; [discriminate | intros [e He]; discriminate].
Qed.

Lemma lookup_outcome_returns (table : list string) (code : Z) :
  lookup_outcome table code = Returned tt
  <-> - Z.of_nat (length table) <= code < Z.of_nat (length table).
Proof.
  unfold lookup_outcome. rewrite <- py_getitem_returns.
  destruct (py_getitem table code) as [e|a].
  - split; [discriminate | intros [a Ha]; discriminate].
  - split; eauto.
Qed.

(** C3, as the code has it: the status is read by Python list indexing.  A
    run raises [IndexError] exactly when the backend's code [rc] has
    [rc >= len(table)] or [rc < -len(table)], and it returns exactly when
    [-len(table) <= rc < len(table)]; a negative code in that range is read
    from the end of the table, and that entry becomes the status. *)
Theorem status_code_raises_outside_python_range o f_fp
    (g : option (vec -> float * grad)) (f' : vec -> float) f fp :
  let rc :=
    (fmin_tnc f_fp (x_init o) (messages o) (max_f_eval o) (tnc_opts o)).2 in
  let wl :=
    warnflag
      (fmin_l_bfgs_b f_fp (x_init o) (if messages o then 1 else -1)
         (max_iters o) (lbfgsb_opts o)).2 in
  let ws :=
    (fmin f' (x_init o) (messages o) (max_f_eval o) (simplex_opts o)).2 in
  let tnc := opt_tnc_opt (Some f_fp) f fp o in
  let lb := opt_lbfgsb_opt (Some f_fp) f fp o in
  let sx := opt_simplex_opt g (Some f') fp o in
  ((result tnc = Raised IndexError <-> (rc < -6 \/ 6 <= rc))
   /\ (result tnc = Returned tt <-> -6 <= rc < 6)
   /\ (-6 <= rc < 0 ->
       status (final tnc) = tnc_rcstrings !! Z.to_nat (rc + 6)))
  /\ ((result lb = Raised IndexError <-> (wl < -3 \/ 3 <= wl))
      /\ (result lb = Returned tt <-> -3 <= wl < 3)
      /\ (-3 <= wl < 0 -> status (final lb) = rcstrings !! Z.to_nat (wl + 3)))
  /\ ((result sx = Raised IndexError <-> (ws < -3 \/ 3 <= ws))
      /\ (result sx = Returned tt <-> -3 <= ws < 3)
      /\ (-3 <= ws < 0 -> status (final sx) = statuses !! Z.to_nat (ws + 3))).
Proof.
  intros rc wl ws tnc lb sx.
  destruct (opt_tnc_opt_run o f_fp f fp) as (_ & Ht & _ & _ & _ & Hst).
  destruct (opt_lbfgsb_opt_run o f_fp f fp) as (_ & Hl & _ & _ & _ & Hsl).
  destruct (opt_simplex_opt_run o g f' fp) as (_ & Hs & _).
  cbn zeta in Ht, Hst, Hl, Hsl, Hs.
  fold rc tnc in Ht, Hst. fold wl lb in Hl, Hsl. fold ws sx in Hs.
  split; [|split]; (split; [|split]).
  - rewrite Ht. apply lookup_outcome_raises.
  - rewrite Ht. apply lookup_outcome_returns.
  - intros Hrc. rewrite Hst.
    destruct (py_getitem_negative tnc_rcstrings rc Hrc) as (a & -> & Ha).
    symmetry. exact Ha.
  - rewrite Hl. apply lookup_outcome_raises.
  - rewrite Hl. apply lookup_outcome_returns.
  - intros Hrc. rewrite Hsl.
    destruct (py_getitem_negative rcstrings wl Hrc) as (a & -> & Ha).
    replace (wl =? 2) with false by (symmetry; apply Z.eqb_neq; lia).
    symmetry. exact Ha.
  - rewrite Hs. apply lookup_outcome_raises.
  - rewrite Hs. apply lookup_outcome_returns.
  - intros Hrc. subst sx. unfold final.
    unfold opt_simplex_opt, py_assert, print_if, lift_exn, bind, emit,
      modify_self, get_self, ret, raise; cbn.
    fold (simplex_opts o). fold ws.
    destruct (fmin f' (x_init o) (messages o) (max_f_eval o) (simplex_opts o))
      as [[[[r0 r1] r2] r3] r4] eqn:Hcall.
    cbn in ws. subst ws.
    destruct (py_getitem_negative statuses r4 Hrc) as (a & Hg & Ha).
    destruct (gtol o); cbn; rewrite Hg; cbn; symmetry; exact Ha.
Qed.

End AdapterFacts.

(** ** The scaled conjugate gradient minimizer *)

Module SCGFacts.
Import SCGSpec.

Local Set Implicit Arguments.

Lemma nonincreasing_snoc (l : list Q) (a b : Q) :
  nonincreasing Qle l -> last l = Some a -> (b <= a)%Q ->
  nonincreasing Qle (l ++ [b])%list.
Proof.
  induction l as [|c l IH]; [discriminate|].
  intros [Hhd Htl] Hlast Hb. destruct l as [|c' l].
  - injection Hlast as ->. simpl. auto.
  - split; [exact Hhd|]. apply IH; assumption.
Qed.

Lemma square_pos (q : Q) : (~ q == 0 -> 0 < q * q)%Q.
Proof.
  intros Hq. destruct (Qlt_le_dec 0 (q * q)) as [|Hle]; [assumption|].
  exfalso. apply Hq. nra.
Qed.

(** *** In any arithmetic *)

Section AnyArithmetic.
Context {R : Type}.
Variable A : arith R.
Variable P : policy R.
Variables (f : list R -> R) (fp : list R -> list R).
Variables (max_f_eval : option Z) (xtol ftol gtol : option R).

Lemma trial_f_new (s : scg_state R) :
  t_f_new (scg_trial A P f fp s) = f (t_x_new (scg_trial A P f fp s)).
Proof.
  unfold scg_trial.
  destruct (scg_estimate A P fp s) as [est evals].
  destruct (scg_regularize A s est) as [[k l] lb]. reflexivity.
Qed.

Lemma pass_step (s : scg_state R) (t : trial R) :
  scg_pass A P f fp s = Step t ->
  t = scg_trial A P f fp s
  /\ n_eqb A (norm A (s_d s)) (n_zero A) = false
  /\ n_eqb A (vdot A (s_d s) (s_g0 s)) (n_zero A) = false.
Proof.
  unfold scg_pass.
  destruct (n_eqb A (norm A (s_d s)) (n_zero A)); [discriminate|].
  destruct (n_eqb A (t_kappa _) (n_zero A)); [discriminate|].
  destruct (n_eqb A (vdot A _ _) (n_zero A)); [discriminate|].
  intros [= <-]. repeat split.
Qed.

(** Only an accepted trial step moves [x] and extends the trace. *)
Lemma step_moves_on_accept_only (s : scg_state R) :
  let s' := (scg_step A P f fp max_f_eval xtol ftol gtol s).1 in
  match scg_pass A P f fp s with
  | Step t =>
      if accepted A t
      then s_x s' = t_x_new t
           /\ s_f0 s' = f (s_x s')
           /\ s_trace s' = (s_trace s ++ [f (s_x s')])%list
      else s_x s' = s_x s /\ s_f0 s' = s_f0 s /\ s_trace s' = s_trace s
  | _ => s_x s' = s_x s /\ s_f0 s' = s_f0 s /\ s_trace s' = s_trace s
  end.
Proof.
  unfold scg_step.
  destruct (scg_pass A P f fp s) as [| |t] eqn:Hp; simpl; [auto | auto |].
  destruct (pass_step s Hp) as (-> & _ & _).
  destruct (accepted A (scg_trial A P f fp s)); simpl; [|auto].
  rewrite trial_f_new. auto.
Qed.

End AnyArithmetic.

(** *** In exact arithmetic *)

Section ExactArithmetic.
Variable sqrtQ : Q -> Q.
Variable P : policy Q.
Hypothesis HP : policy_ok P.
Variables (f : list Q -> Q) (fp : list Q -> list Q).
Variables (max_f_eval : option Z) (xtol ftol gtol : option Q).

Local Notation "'A'" := (rationals sqrtQ).
Local Notation "'step'" := (scg_step A P f fp max_f_eval xtol ftol gtol).
Local Notation "'reach'" := (reachable A P f fp max_f_eval xtol ftol gtol).
Local Open Scope Q_scope.

(** Steps 2a and 2b leave a positive effective curvature and a positive
    lambda. *)
Lemma trial_positive (s : scg_state Q) :
  0 < s_lambda s -> ~ norm A (s_d s) == 0 ->
  0 < t_kappa (scg_trial A P f fp s) /\ 0 < t_lambda (scg_trial A P f fp s).
Proof.
  intros Hl Hn. unfold scg_trial.
  destruct (scg_estimate A P fp s) as [kappa evals].
  unfold scg_regularize. cbn [n_leb n_zero n_two n_add n_sub n_mul n_div rationals].
  pose proof (square_pos Hn) as Hnn.
  set (nn := norm A (s_d s) * norm A (s_d s)) in *.
  destruct (Qle_bool kappa 0) eqn:Hk; cbn [t_kappa t_lambda].
  - apply Qle_bool_iff in Hk.
    assert (Hq : kappa / nn * nn == kappa).
    { unfold Qdiv. field. intros H0. rewrite H0 in Hnn.
      exact (Qlt_irrefl _ Hnn). }
    set (q := kappa / nn) in *. clearbody q.
    assert (q <= 0) by nra.
    split; nra.
  - split; [|assumption].
    apply Qnot_le_lt. intros Hle. apply Qle_bool_iff in Hle. congruence.
Qed.

(** The step-acceptance rule in exact arithmetic: with a positive curvature
    and a direction not orthogonal to the gradient, [Delta >= 0] says that
    the trial point is no worse. *)
Lemma accepted_descends (s : scg_state Q) :
  let t := scg_trial A P f fp s in
  0 < t_kappa t -> ~ vdot A (s_d s) (s_g0 s) == 0 ->
  accepted A t = true -> t_f_new t <= s_f0 s.
Proof.
  intros t Hk Hdg Hacc. unfold accepted in Hacc.
  cbn [n_leb n_zero rationals] in Hacc.
  apply Qle_bool_iff in Hacc.
  assert (HD : t_Delta t
               = 2 * (s_f0 s - t_f_new t) * t_kappa t
                 / (vdot A (s_d s) (s_g0 s) * vdot A (s_d s) (s_g0 s))).
  { subst t. unfold scg_trial.
    destruct (scg_estimate A P fp s) as [est evals].
    destruct (scg_regularize A s est) as [[k l] lb]. reflexivity. }
  rewrite HD in Hacc. clear HD.
  pose proof (square_pos Hdg) as Hsq.
  set (dd := vdot A (s_d s) (s_g0 s) * vdot A (s_d s) (s_g0 s)) in *.
  set (a := s_f0 s - t_f_new t) in *.
  assert (Hinv : 0 < / dd) by (apply Qinv_lt_0_compat; assumption).
  unfold Qdiv in Hacc.
  assert (H1 : 0 <= 2 * a * t_kappa t).
  { apply (Qmult_lt_0_le_reg_r _ _ (/ dd)); [assumption|].
    rewrite Qmult_0_l. assumption. }
  assert (H2 : 0 <= 2 * a).
  { apply (Qmult_lt_0_le_reg_r _ _ (t_kappa t)); [assumption|].
    rewrite Qmult_0_l. assumption. }
  subst a. lra.
Qed.

Lemma pass_step_exact (s : scg_state Q) (t : trial Q) :
  scg_pass A P f fp s = Step t ->
  t = scg_trial A P f fp s
  /\ ~ norm A (s_d s) == 0 /\ ~ vdot A (s_d s) (s_g0 s) == 0.
Proof.
  intros Hp. destruct (pass_step _ _ _ _ _ Hp) as (-> & Hn & Hdg).
  repeat split; apply Qeq_bool_neq; assumption.
Qed.

Lemma inv_init (x0 : list Q) : inv f (scg_init A P f fp x0).
Proof.
  constructor; simpl; try reflexivity.
  - apply (lambda0_pos HP).
  - auto.
Qed.

Lemma inv_step (s : scg_state Q) : inv f s -> inv f (step s).1.
Proof.
  intros Hs. unfold scg_step.
  destruct (scg_pass A P f fp s) as [| |t] eqn:Hp; cbn [fst].
  - destruct Hs. constructor; simpl; assumption.
  - assumption.
  - destruct (pass_step_exact s Hp) as (-> & Hn & Hdg).
    destruct (trial_positive s (inv_lambda Hs) Hn) as [Hk Hl].
    destruct (accepted A (scg_trial A P f fp s)) eqn:Hacc.
    + pose proof (accepted_descends s Hk Hdg Hacc) as Hle.
      constructor; simpl.
      * match goal with |- context [if ?c then _ else _] => destruct c end;
          [|exact Hl].
        apply (lambda_down_pos HP). exact Hl.
      * apply trial_f_new.
      * apply last_snoc.
      * apply nonincreasing_snoc with (a := s_f0 s);
          [apply (inv_trace Hs) | apply (inv_last Hs) | exact Hle].
    + destruct Hs. constructor; simpl; try assumption.
      apply (lambda_up_pos HP). exact Hl.
Qed.

Lemma reachable_inv (x0 : list Q) (s : scg_state Q) : reach x0 s -> inv f s.
Proof.
  induction 1 as [|s _ IH _]; [apply inv_init | apply inv_step, IH].
Qed.

Lemma scg_loop_inv (iters : nat) (s : scg_state Q) :
  inv f s -> inv f (scg_loop A P f fp max_f_eval xtol ftol gtol iters s).1.
Proof.
  revert s. induction iters as [|iters IH]; intros s Hs; simpl; [assumption|].
  pose proof (inv_step Hs) as Hs'.
  destruct (step s) as [s' [st|]]; simpl in *; [assumption | apply IH, Hs'].
Qed.

(** C2, as the minimizer of section 4.1 has it.  In any arithmetic,
    binary64 included, only an accepted trial step moves [x] and extends
    the trace: a rejected step, a restart and a stop leave both as they
    are.  In exact arithmetic, with lambda kept positive, an accepted step
    moves [x] to a point where the objective is no larger, so the trace
    never goes up, during the run and in the result of [scg_minimize]. *)
Theorem scg_accepted_steps_descend (x0 : list Q) (max_iters : nat) :
  (forall (R : Type) (B : arith R) (P' : policy R) (f' : list R -> R)
          (fp' : list R -> list R) (mfe : option Z) (xt ft gt : option R)
          (s : scg_state R),
      let s' := (scg_step B P' f' fp' mfe xt ft gt s).1 in
      match scg_pass B P' f' fp' s with
      | Step t =>
          if accepted B t
          then s_x s' = t_x_new t
               /\ s_f0 s' = f' (s_x s')
               /\ s_trace s' = (s_trace s ++ [f' (s_x s')])%list
          else s_x s' = s_x s /\ s_f0 s' = s_f0 s /\ s_trace s' = s_trace s
      | _ => s_x s' = s_x s /\ s_f0 s' = s_f0 s /\ s_trace s' = s_trace s
      end)
  /\ (forall s : scg_state Q, reach x0 s ->
        match scg_pass A P f fp s with
        | Step t =>
            accepted A t = true -> f (s_x (step s).1) <= f (s_x s)
        | _ => True
        end)
  /\ (forall s : scg_state Q, reach x0 s ->
        nonincreasing Qle (s_trace (step s).1))
  /\ nonincreasing Qle
       (scg_minimize A P f fp max_f_eval xtol ftol gtol x0 max_iters).1.1.2.
Proof.
  split; [|split; [|split]].
  - intros R B P' f' fp' mfe xt ft gt s.
    apply step_moves_on_accept_only.
  - intros s Hr. pose proof (reachable_inv Hr) as Hs.
    pose proof (step_moves_on_accept_only A P f fp max_f_eval xtol ftol gtol s)
      as Hmove.
    cbn zeta in Hmove.
    destruct (scg_pass A P f fp s) as [| |t] eqn:Hp; [exact I | exact I |].
    intros Hacc. rewrite Hacc in Hmove. destruct Hmove as (Hx & Hf0 & _).
    destruct (pass_step_exact s Hp) as (-> & Hn & Hdg).
    destruct (trial_positive s (inv_lambda Hs) Hn) as [Hk _].
    pose proof (accepted_descends s Hk Hdg Hacc) as Hle.
    rewrite (inv_f0 Hs) in Hle. rewrite trial_f_new in Hle.
    rewrite Hx. exact Hle.
  - intros s Hr. exact (inv_trace (inv_step (reachable_inv Hr))).
  - unfold scg_minimize.
    pose proof (scg_loop_inv max_iters (inv_init x0)) as Hinv.
    destruct (scg_loop A P f fp max_f_eval xtol ftol gtol max_iters
                (scg_init A P f fp x0)) as [s st].
    simpl in *. apply (inv_trace Hinv).
Qed.

End ExactArithmetic.

Lemma demo_policy_ok : policy_ok demo_policy.
Proof.
  constructor; simpl.
  - reflexivity.
  - intros l Hl. rewrite Qred_correct. lra.
  - intros l Hl. rewrite Qred_correct. lra.
Qed.

Lemma scg_demo_trace_nonincreasing :
  nonincreasing Qle
    (scg_minimize (rationals sqrt6) demo_policy demo_f demo_fp
       None None None None [0%Q; 0%Q] 100).1.1.2.
Proof.
  exact (proj2 (proj2 (proj2
           (scg_accepted_steps_descend sqrt6 demo_policy_ok
              demo_f demo_fp None None None None [0%Q; 0%Q] 100%nat)))).
Defined.

(** C2 as stated fails in double precision.  For [f(x) = 2^260 * |x|]
    started at [2^258 - 2^240], the first trial step halves the distance
    past the minimum to [-(2^258 + 2^240)], where [f] is larger;
    [(d . g0)^2 = 2^1040] overflows to infinity, [Delta] is [-0], and the
    test [Delta >= 0] accepts the step: [x] moves, and the trace goes up. *)
Lemma scg_binary64_accepts_uphill_step :
  let s0 := scg_init binary64 policy64 steep_f steep_fp steep_x0 in
  let s1 := (scg_step binary64 policy64 steep_f steep_fp
               None None None None s0).1 in
  let r := scg_minimize binary64 policy64 steep_f steep_fp
             None None None None steep_x0 1 in
  (exists t : trial PrimFloat.float,
      scg_pass binary64 policy64 steep_f steep_fp s0 = Step t
      /\ accepted binary64 t = true
      /\ s_x s1 = t_x_new t)
  /\ PrimFloat.ltb (steep_f (s_x s0)) (steep_f (s_x s1)) = true
  /\ r.1.1.2 = [steep_f (s_x s0); steep_f (s_x s1)]
  /\ ~ nonincreasing le64 r.1.1.2.
Proof.
  intros s0 s1 r. split; [|split; [|split]].
  - exists (scg_trial binary64 policy64 steep_f steep_fp s0).
    split; [|split]; vm_compute; reflexivity.
  - vm_compute. reflexivity.
  - vm_compute. reflexivity.
  - intros [Hle _]. vm_compute in Hle. discriminate Hle.
Qed.

End SCGFacts.

(** ** The adapters on concrete inputs *)

Section Concrete.
Local Open Scope Q_scope.

(** C3 as stated fails: with a backend whose return code is [-1], a code
    outside the table's range [0 .. 5], the TNC run does not raise; it
    returns with the status "Function is constant", the last entry of the
    table. *)
Lemma status_code_minus_one_returns :
  ~ (forall rc : Z, ~ (0 <= rc < 6)%Z ->
       result (@opt_tnc_opt (demo_env rc) (Some demo_f_fp) None None
                 (@opt_tnc_init (demo_env rc) [0; 0] no_kwargs))
       = Raised IndexError)
  /\ result (@opt_tnc_opt (demo_env (-1)) (Some demo_f_fp) None None
               (@opt_tnc_init (demo_env (-1)) [0; 0] no_kwargs))
     = Returned tt
  /\ status (final (@opt_tnc_opt (demo_env (-1)) (Some demo_f_fp) None None
                      (@opt_tnc_init (demo_env (-1)) [0; 0] no_kwargs)))
     = Some "Function is constant".
Proof.
  split; [|split; reflexivity].
  intros H. specialize (H (-1)%Z ltac:(lia)). discriminate H.
Qed.

Lemma status_code_minus_one_reads_last_entry :
  status (final (@opt_tnc_opt (demo_env (-1)) (Some demo_f_fp) None None
                   (@opt_tnc_init (demo_env (-1)) [0; 0] no_kwargs)))
  = tnc_rcstrings !! Z.to_nat (-1 + 6).
Proof.
  apply (proj2 (proj2 (proj1
           (@status_code_raises_outside_python_range (demo_env (-1))
              (@opt_tnc_init (demo_env (-1)) [0; 0] no_kwargs)
              demo_f_fp None SCGSpec.demo_f None None)))).
  vm_compute. split; [discriminate | reflexivity].
Defined.

Lemma adadelta_demo_run :
  let E := demo_env 0 in
  let self := @Opt_Adadelta_init E None None None [0; 0] no_kwargs in
  let opt :=
    @climin_Adadelta E [0; 0] SCGSpec.demo_fp (PyFloat (1 # 10))
      (PyFloat (9 # 10)) (PyInt 0) in
  exists j : nat,
    let self' :=
      set_status (Some "maximum number of function evaluations exceeded ")
        (share_x_opt (move_x_init (wrt opt j) self)) in
    (j <= 999)%nat
    /\ (forall fuel : nat, (999 < fuel)%nat ->
          result (@Opt_Adadelta_opt E fuel None None (Some SCGSpec.demo_fp)
                    self) = Returned tt)
    /\ (forall fuel : nat,
          result (@Opt_Adadelta_opt E fuel None None (Some SCGSpec.demo_fp)
                    self) = Returned tt ->
          final (@Opt_Adadelta_opt E fuel None None (Some SCGSpec.demo_fp)
                   self) = self'
          /\ final (@Optimizer_run E
                      (@Opt_Adadelta_opt E fuel None None
                         (Some SCGSpec.demo_fp)) 0%Z 5%Z self)
             = set_time "5" self')
    /\ x_opt self' = Some (wrt opt j)
    /\ x_init self' = wrt opt j
    /\ x_opt_shares self' = true
    /\ status self'
       = Some "maximum number of function evaluations exceeded "
    /\ same_settings self self'
    /\ f_opt self' = None /\ funct_eval self' = None /\ trace self' = None
    /\ Optimizer_str self' = inl TypeError
    /\ Optimizer_str (set_time "5" self') = inl TypeError.
Proof.
  intros E self opt.
  apply (@adadelta_assigns_x_opt_and_status_only E [0; 0] no_kwargs
           None None None None None SCGSpec.demo_fp 0%Z 5%Z 999%nat).
  vm_compute. discriminate.
Defined.

End Concrete.

(** * Further properties *)

(** ** The registry, beyond first match *)

Module RegistryMore.
Import Str.

Lemma lower_ascii_idem (c : ascii) : lower_ascii (lower_ascii c) = lower_ascii c.
Proof. destruct c as [[] [] [] [] [] [] [] []]; reflexivity. Qed.

Lemma lower_idem (s : string) : lower (lower s) = lower s.
Proof.
  induction s as [|c s IH]; simpl; [reflexivity|].
  rewrite lower_ascii_idem, IH. reflexivity.
Qed.

Lemma length_lower (s : string) : String.length (lower s) = String.length s.
Proof. induction s as [|c s IH]; simpl; [reflexivity | now rewrite IH]. Qed.

Lemma length_app (s1 s2 : string) :
  String.length (s1 +:+ s2) = (String.length s1 + String.length s2)%nat.
Proof. induction s1 as [|c s1 IH]; simpl; [reflexivity | now rewrite IH]. Qed.

Lemma occurs_length (sub s : string) :
  occurs sub s -> (String.length sub <= String.length s)%nat.
Proof.
  intros (pre & post & ->). rewrite !length_app. lia.
Qed.

(** The loop reads the query through [lower] only, except in the message of
    the error. *)
Lemma get_optimizer_loop_lower {V : Type} (d : list (string * V))
    (keys : list string) (n1 n2 : string) (v : V) :
  lower n1 = lower n2 ->
  get_optimizer_loop d keys n1 = inr v -> get_optimizer_loop d keys n2 = inr v.
Proof.
  intros Hl. induction keys as [|k keys IH]; simpl; [discriminate|].
  rewrite Hl. destruct (negb _); [trivial | exact IH].
Qed.

End RegistryMore.

(** X1: each registered name, in any capitalisation, resolves to the class
    registered under it. *)
Theorem get_optimizer_registered_name (name key : string)
    (cls : optimizer_class) :
  In (key, cls) optimizers -> Str.lower name = key ->
  get_optimizer name = inr cls.
Proof.
  intros Hin Hl. simpl in Hin.
  unfold get_optimizer, optimizers, dict_keys.
  cbn [map fst get_optimizer_loop].
  repeat (destruct Hin as [Heq|Hin];
          [injection Heq as <- <-; rewrite Hl; reflexivity|]).
  destruct Hin.
Qed.

Lemma get_optimizer_registered_name_example :
  get_optimizer "AdaDelta" = inr Opt_Adadelta.
Proof.
  apply (get_optimizer_registered_name "AdaDelta" "adadelta" Opt_Adadelta).
  - simpl. do 4 right. left. reflexivity.
  - reflexivity.
Defined.

(** X2: the class a lookup returns depends on the query's lower-cased form
    only: two queries that differ in letter case alone find the same class
    or both find none, and a query finds what its lower-cased form finds. *)
Theorem get_optimizer_case_insensitive (n1 n2 : string) :
  Str.lower n1 = Str.lower n2 ->
  (forall cls, get_optimizer n1 = inr cls <-> get_optimizer n2 = inr cls)
  /\ (forall cls, get_optimizer n1 = inr cls
                  <-> get_optimizer (Str.lower n1) = inr cls).
Proof.
  intros Hl. split; intros cls; split;
    apply RegistryMore.get_optimizer_loop_lower;
    rewrite ?RegistryMore.lower_idem; congruence.
Qed.

Lemma get_optimizer_case_insensitive_example :
  (forall cls, get_optimizer "Simplex" = inr cls
               <-> get_optimizer "SIMPLEX" = inr cls)
  /\ (forall cls, get_optimizer "Simplex" = inr cls
                  <-> get_optimizer (Str.lower "Simplex") = inr cls).
Proof.
  apply (get_optimizer_case_insensitive "Simplex" "SIMPLEX"). reflexivity.
Defined.

(** X3: a query longer than eight characters, the length of the longest
    registered key, raises the [KeyError]. *)
Theorem get_optimizer_long_query (name : string) :
  (8 < String.length name)%nat ->
  get_optimizer name
  = inl (KeyError ("No optimizer was found matching the name: " +:+ name)).
Proof.
  intros Hlen.
  pose proof (get_optimizer_loop_spec optimizers optimizers name
                optimizers_getitem) as Hspec.
  fold (get_optimizer name) in Hspec.
  destruct (get_optimizer name) as [e|c].
  - destruct Hspec as [-> _]. reflexivity.
  - exfalso. destruct Hspec as (key & before & after & Heq & Hk & _).
    apply RegistryMore.occurs_length in Hk.
    rewrite !RegistryMore.length_lower in Hk.
    assert (Hin : In (key, c) optimizers).
    { rewrite Heq. apply in_or_app. right. left. reflexivity. }
    simpl in Hin.
    repeat (destruct Hin as [Hkey|Hin];
            [injection Hkey as <- _; simpl in Hk; lia|]).
    destruct Hin.
Qed.

Lemma get_optimizer_long_query_example :
  get_optimizer "l-bfgs-b (scipy)"
  = inl (KeyError
           "No optimizer was found matching the name: l-bfgs-b (scipy)").
Proof.
  apply (get_optimizer_long_query "l-bfgs-b (scipy)"). simpl. lia.
Defined.

(** ** The adapters, beyond the calls they make *)

Lemma py_getitem_error {A : Type} (l : list A) (i : Z) (e : exn) :
  py_getitem l i = inl e -> e = IndexError.
Proof.
  unfold py_getitem. destruct (_ && _); [destruct (l !! _)|]; congruence.
Qed.

(** [l[-1]] is the last element, and an [IndexError] on the empty list. *)
Lemma py_getitem_last {A : Type} (l : list A) :
  py_getitem l (-1)
  = match last l with
    | Some a => inr a
    | None => inl IndexError
    end.
Proof.
  unfold py_getitem. cbn [Z.ltb Z.compare]. rewrite last_lookup.
  destruct l as [|a l]; [reflexivity|].
  replace ((0 <=? -1 + Z.of_nat (length (a :: l)))
           && (-1 + Z.of_nat (length (a :: l)) <? Z.of_nat (length (a :: l))))
    with true
    by (symmetry; apply andb_true_iff; split;
        [apply Z.leb_le | apply Z.ltb_lt]; simpl length; lia).
  replace (Z.to_nat (-1 + Z.of_nat (length (a :: l))))
    with (pred (length (a :: l))) by (simpl length; lia).
  destruct ((a :: l) !! pred (length (a :: l))); reflexivity.
Qed.

Section AdapterMore.
Context {E : Env}.
Implicit Types (self o : Optimizer) (kw : kwargs) (x : vec).
Implicit Types (f_fp : vec -> float * grad) (f : option (vec -> float)).
Implicit Types (fp : option (vec -> grad)) (g : option (vec -> float * grad)).

Ltac run_all :=
  unfold final, events, result, Optimizer_run, Optimizer_opt, opt_tnc_opt,
    opt_lbfgsb_opt, opt_simplex_opt, opt_SCG_opt, Opt_Adadelta_opt, py_assert,
    getattr, print_if, lift_exn, bind, emit, modify_self, get_self, ret,
    raise; cbn.

(** X4: [run] makes the events of [opt] and ends as [opt] ends; it sets
    [time] to [str(end - start)] when [opt] returns and leaves the object as
    [opt] left it when [opt] raises.  On the base class, whose [opt] raises
    [NotImplementedError], the object is unchanged. *)
Theorem run_sets_time_on_return (opt : M unit) (start end_ : datetime) o g f fp :
  events (Optimizer_run opt start end_ o) = events (opt o)
  /\ result (Optimizer_run opt start end_ o) = result (opt o)
  /\ final (Optimizer_run opt start end_ o)
     = match result (opt o) with
       | Returned _ => set_time (str_timedelta end_ start) (final (opt o))
       | _ => final (opt o)
       end
  /\ Optimizer_run (Optimizer_opt g f fp) start end_ o
     = (o, [],
        Raised (NotImplementedError
                  "this needs to be implemented to use the optimizer class")).
Proof.
  unfold Optimizer_run, bind, modify_self, final, events, result.
  destruct (opt o) as [[o1 l1] [[]|e|]]; cbn; rewrite ?app_nil_r;
    repeat split; reflexivity.
Qed.

(** X5: no [opt] method assigns an attribute other than the result
    attributes [x_opt], [f_opt], [funct_eval], [status] and [trace]: the
    settings and [time] are after the call what they were before it, however
    the call ends.  For the four adapters other than Adadelta that includes
    the contents of [x_init]; the Adadelta backend updates that array in
    place, and when the call returns [x_opt] is bound to the same array. *)
Theorem opt_keeps_configuration o g f fp (fuel : nat) :
  same_config o (final (opt_tnc_opt g f fp o))
  /\ same_config o (final (opt_lbfgsb_opt g f fp o))
  /\ same_config o (final (opt_simplex_opt g f fp o))
  /\ same_config o (final (opt_SCG_opt g f fp o))
  /\ same_settings o (final (Opt_Adadelta_opt fuel g f fp o))
  /\ match result (Opt_Adadelta_opt fuel g f fp o) with
     | Returned _ =>
         x_opt (final (Opt_Adadelta_opt fuel g f fp o))
         = Some (x_init (final (Opt_Adadelta_opt fuel g f fp o)))
         /\ x_opt_shares (final (Opt_Adadelta_opt fuel g f fp o)) = true
     | _ => True
     end.
Proof.
  unfold same_config, same_settings.
  split; [|split; [|split; [|split; [|split]]]].
  - destruct g as [f_fp|]; run_all; [|repeat split; reflexivity].
    destruct (py_getitem tnc_rcstrings _); cbn; repeat split; reflexivity.
  - destruct g as [f_fp|]; run_all; [|repeat split; reflexivity].
    destruct (xtol o) eqn:Hx, (ftol o) eqn:Hf; cbn;
      destruct (py_getitem rcstrings _); cbn;
      try destruct (warnflag _ =? 2); cbn; repeat split; congruence.
  - destruct f as [f'|]; run_all.
    + destruct (fmin _ _ _ _ _) as [[[[r0 r1] r2] r3] r4]; cbn.
      destruct (gtol o) eqn:Hg; cbn; destruct (py_getitem statuses _); cbn;
        repeat split; congruence.
    + destruct (gtol o) eqn:Hg; cbn; repeat split; congruence.
  - destruct f as [f|]; [|run_all; repeat split; reflexivity].
    destruct fp as [fp|]; [|run_all; repeat split; reflexivity].
    run_all. destruct (SCG _ _ _ _ _ _ _ _ _) as [[[r0 r1] r2] r3]; cbn.
    destruct (py_getitem r1 (-1)); cbn; repeat split; reflexivity.
  - destruct fp as [fp|]; [|run_all; repeat split; reflexivity].
    run_all.
    destruct (step_rate o) eqn:H1; cbn; [|repeat split; congruence].
    destruct (decay o) eqn:H2; cbn; [|repeat split; congruence].
    destruct (momentum o) eqn:H3; cbn; [|repeat split; congruence].
    destruct (adadelta_loop _ _ _ _); cbn; [repeat split; congruence|].
    destruct fuel; cbn; repeat split; congruence.
  - destruct fp as [fp|]; [|exact I].
    run_all.
    destruct (step_rate o); cbn; [|exact I].
    destruct (decay o); cbn; [|exact I].
    destruct (momentum o); cbn; [|exact I].
    destruct (adadelta_loop _ _ _ _); cbn; [split; reflexivity | exact I].
Qed.

(** The three scipy runs and the SCG run in closed form. *)
Lemma opt_tnc_opt_full o f_fp f fp :
  opt_tnc_opt (Some f_fp) f fp o
  = let call :=
      fmin_tnc f_fp (x_init o) (messages o) (max_f_eval o) (tnc_opts o) in
    let x := call.1.1 in
    let o3 :=
      set_funct_eval (Some call.1.2)
        (set_f_opt (Some (f_fp x).1) (set_x_opt (Some x) o)) in
    let log :=
      [Ev_fmin_tnc (x_init o) (messages o) (max_f_eval o) (tnc_opts o);
       Ev_f_fp x] in
    match py_getitem tnc_rcstrings call.2 with
    | inr s => (set_status (Some s) o3, log, Returned tt)
    | inl e => (o3, log, Raised e)
    end.
Proof.
  run_all. fold (tnc_opts o).
  destruct (py_getitem tnc_rcstrings _); reflexivity.
Qed.

Lemma opt_lbfgsb_opt_full o f_fp f fp :
  opt_lbfgsb_opt (Some f_fp) f fp o
  = let iprint := if messages o then 1 else -1 in
    let call :=
      fmin_l_bfgs_b f_fp (x_init o) iprint (max_iters o) (lbfgsb_opts o) in
    let x := call.1.1 in
    let o3 :=
      set_funct_eval (Some (funcalls call.2))
        (set_f_opt (Some (f_fp x).1) (set_x_opt (Some x) o)) in
    let log :=
      (lbfgsb_warnings o
       ++ [Ev_fmin_l_bfgs_b (x_init o) iprint (max_iters o) (lbfgsb_opts o);
           Ev_f_fp x])%list in
    match py_getitem rcstrings (warnflag call.2) with
    | inr s =>
        (set_status
           (Some (if warnflag call.2 =? 2
                  then "Error" +:+ task call.2 else s)) o3,
         log, Returned tt)
    | inl e => (o3, log, Raised e)
    end.
Proof.
  run_all. fold (lbfgsb_opts o). unfold lbfgsb_warnings, warning_if.
  destruct (xtol o), (ftol o); cbn;
    destruct (py_getitem rcstrings _); cbn;
    try destruct (warnflag _ =? 2); reflexivity.
Qed.

Lemma opt_simplex_opt_full o g (f' : vec -> float) fp :
  opt_simplex_opt g (Some f') fp o
  = let call :=
      fmin f' (x_init o) (messages o) (max_f_eval o) (simplex_opts o) in
    let o3 :=
      set_funct_eval (Some call.1.2)
        (set_f_opt (Some call.1.1.1.2) (set_x_opt (Some call.1.1.1.1) o)) in
    let log :=
      (simplex_warnings o
       ++ [Ev_fmin (x_init o) (messages o) (max_f_eval o) (simplex_opts o)])%list in
    match py_getitem statuses call.2 with
    | inr s => (set_trace None (set_status (Some s) o3), log, Returned tt)
    | inl e => (o3, log, Raised e)
    end.
Proof.
  run_all. fold (simplex_opts o). unfold simplex_warnings, warning_if.
  destruct (fmin _ _ _ _ _) as [[[[r0 r1] r2] r3] r4]; cbn.
  destruct (gtol o); cbn; destruct (py_getitem statuses _); reflexivity.
Qed.

Lemma opt_SCG_opt_full o g (f : vec -> float) (fp : vec -> grad) :
  opt_SCG_opt g (Some f) (Some fp) o
  = let call :=
      SCG f fp (x_init o) (messages o) (max_iters o) (max_f_eval o)
        (xtol o) (ftol o) (gtol o) in
    let o2 := set_trace (Some call.1.1.2) (set_x_opt (Some call.1.1.1) o) in
    let log :=
      [Ev_SCG (x_init o) (messages o) (max_iters o) (max_f_eval o)
         (xtol o) (ftol o) (gtol o)] in
    match last call.1.1.2 with
    | Some v =>
        (set_status (Some call.2)
           (set_funct_eval (Some call.1.2) (set_f_opt (Some v) o2)),
         log, Returned tt)
    | None => (o2, log, Raised IndexError)
    end.
Proof.
  run_all. destruct (SCG _ _ _ _ _ _ _ _ _) as [[[r0 r1] r2] r3]; cbn.
  rewrite py_getitem_last. destruct (last r1); reflexivity.
Qed.

Lemma Opt_Adadelta_opt_full o g f (fp : vec -> grad) (fuel : nat)
    (sr dc mo : pynum) :
  step_rate o = Some sr -> decay o = Some dc -> momentum o = Some mo ->
  Opt_Adadelta_opt fuel g f (Some fp) o
  = let opt := climin_Adadelta (x_init o) fp sr dc mo in
    let log := [Ev_climin_Adadelta (x_init o) sr dc mo] in
    match adadelta_loop fuel opt (max_iters o) 0 with
    | Some k =>
        (set_status
           (Some "maximum number of function evaluations exceeded ")
           (share_x_opt (move_x_init (wrt opt k) o)),
         log, Returned tt)
    | None =>
        (match fuel with
         | O => o
         | S n => move_x_init (wrt opt n) o
         end, log, OutOfFuel)
    end.
Proof.
  intros H1 H2 H3. run_all. rewrite H1; cbn. rewrite H2; cbn.
  rewrite H3; cbn. destruct (adadelta_loop _ _ _ _); reflexivity.
Qed.

(** X6: for the four adapters whose backend leaves the array [x_init]
    alone (TNC, L-BFGS-B, simplex, SCG), calling [opt] again on the object a
    call of [opt] has left makes the same events, ends the same way and
    leaves that object as it is. *)
Theorem opt_again_is_the_same o g f fp :
  opt_tnc_opt g f fp (final (opt_tnc_opt g f fp o))
  = opt_tnc_opt g f fp o
  /\ opt_lbfgsb_opt g f fp (final (opt_lbfgsb_opt g f fp o))
     = opt_lbfgsb_opt g f fp o
  /\ opt_simplex_opt g f fp (final (opt_simplex_opt g f fp o))
     = opt_simplex_opt g f fp o
  /\ opt_SCG_opt g f fp (final (opt_SCG_opt g f fp o))
     = opt_SCG_opt g f fp o.
Proof.
  split; [|split; [|split]].
  - destruct g as [f_fp|]; [|reflexivity].
    rewrite (opt_tnc_opt_full o). cbn zeta.
    destruct (py_getitem tnc_rcstrings _) as [e|s] eqn:Hs;
      unfold final; cbn [fst]; rewrite opt_tnc_opt_full; cbn zeta;
      match goal with
      | |- context [py_getitem tnc_rcstrings ?c] =>
          change c
            with (fmin_tnc f_fp (x_init o) (messages o) (max_f_eval o)
                    (tnc_opts o)).2
      end; rewrite Hs; reflexivity.
  - destruct g as [f_fp|]; [|reflexivity].
    rewrite (opt_lbfgsb_opt_full o). cbn zeta.
    destruct (py_getitem rcstrings _) as [e|s] eqn:Hs;
      unfold final; cbn [fst]; rewrite opt_lbfgsb_opt_full; cbn zeta;
      match goal with
      | |- context [py_getitem rcstrings ?c] =>
          change c
            with (warnflag
                    (fmin_l_bfgs_b f_fp (x_init o)
                       (if messages o then 1 else -1) (max_iters o)
                       (lbfgsb_opts o)).2)
      end; rewrite Hs; reflexivity.
  - destruct f as [f'|]; [|rewrite !opt_simplex_opt_none; reflexivity].
    rewrite (opt_simplex_opt_full o). cbn zeta.
    destruct (py_getitem statuses _) as [e|s] eqn:Hs;
      unfold final; cbn [fst]; rewrite opt_simplex_opt_full; cbn zeta;
      match goal with
      | |- context [py_getitem statuses ?c] =>
          change c
            with (fmin f' (x_init o) (messages o) (max_f_eval o)
                    (simplex_opts o)).2
      end; rewrite Hs; reflexivity.
  - destruct f as [f|]; [|destruct fp; reflexivity].
    destruct fp as [fp|]; [|reflexivity].
    rewrite (opt_SCG_opt_full o). cbn zeta.
    destruct (last _) as [v|] eqn:Hs;
      unfold final; cbn [fst]; rewrite opt_SCG_opt_full; cbn zeta;
      match goal with
      | |- context [last ?c] =>
          change c
            with (SCG f fp (x_init o) (messages o) (max_iters o)
                    (max_f_eval o) (xtol o) (ftol o) (gtol o)).1.1.2
      end; rewrite Hs; reflexivity.
Qed.

(** X7: when TNC returns a code past the end of its table (scipy has the
    codes 6 and 7), [run] raises [IndexError] after [x_opt], [f_opt] and
    [funct_eval] have been stored: they hold the new values, while [status]
    and [time] keep the old ones. *)
Theorem tnc_code_past_table o f_fp f fp (start end_ : datetime) :
  let call :=
    fmin_tnc f_fp (x_init o) (messages o) (max_f_eval o) (tnc_opts o) in
  6 <= call.2 ->
  let r := Optimizer_run (opt_tnc_opt (Some f_fp) f fp) start end_ o in
  result r = Raised IndexError
  /\ x_opt (final r) = Some call.1.1
  /\ f_opt (final r) = Some (f_fp call.1.1).1
  /\ funct_eval (final r) = Some call.1.2
  /\ status (final r) = status o
  /\ time (final r) = time o.
Proof.
  intros call Hrc r. subst r.
  unfold Optimizer_run, bind. rewrite opt_tnc_opt_full. cbn zeta. fold call.
  destruct (py_getitem tnc_rcstrings call.2) as [e|s] eqn:Hs.
  - apply py_getitem_error in Hs as ->. repeat split; reflexivity.
  - exfalso.
    assert (Hex : exists e, py_getitem tnc_rcstrings call.2 = inl e).
    { apply py_getitem_raises. right. simpl. lia. }
    destruct Hex as [e He]. congruence.
Qed.

(** X8: L-BFGS-B's status by warnflag: 0 and 1 give the table's entries, 2
    gives "Error" followed by the backend's task message instead of the
    table's bare "Error", and a warnflag from 3 on raises [IndexError] with
    the status left as it was. *)
Theorem lbfgsb_status_by_warnflag o f_fp f fp :
  let info :=
    (fmin_l_bfgs_b f_fp (x_init o) (if messages o then 1 else -1)
       (max_iters o) (lbfgsb_opts o)).2 in
  let r := opt_lbfgsb_opt (Some f_fp) f fp o in
  (warnflag info = 0 ->
   result r = Returned tt /\ status (final r) = Some "Converged")
  /\ (warnflag info = 1 ->
      result r = Returned tt
      /\ status (final r) = Some "Maximum number of f evaluations reached")
  /\ (warnflag info = 2 ->
      result r = Returned tt
      /\ status (final r) = Some ("Error" +:+ task info))
  /\ (3 <= warnflag info ->
      result r = Raised IndexError /\ status (final r) = status o).
Proof.
  intros info r. subst r. rewrite opt_lbfgsb_opt_full. cbn zeta. fold info.
  split; [|split; [|split]]; intros Hw.
  1-3: rewrite Hw; split; reflexivity.
  destruct (py_getitem rcstrings (warnflag info)) as [e|s] eqn:Hs.
  - apply py_getitem_error in Hs as ->. split; reflexivity.
  - exfalso.
    assert (Hex : exists e, py_getitem rcstrings (warnflag info) = inl e)
      by (apply py_getitem_raises; right; simpl; lia).
    destruct Hex as [e He]. congruence.
Qed.

(** X9: the SCG adapter stores the returned trace and takes [f_opt] from its
    last entry; when the trace is empty the run raises [IndexError] with
    [x_opt] and [trace] stored and [f_opt], [funct_eval] and [status] left
    as they were. *)
Theorem opt_SCG_f_opt_is_last_of_trace o g (f : vec -> float)
    (fp : vec -> grad) :
  let call :=
    SCG f fp (x_init o) (messages o) (max_iters o) (max_f_eval o)
      (xtol o) (ftol o) (gtol o) in
  let r := opt_SCG_opt g (Some f) (Some fp) o in
  x_opt (final r) = Some call.1.1.1
  /\ trace (final r) = Some call.1.1.2
  /\ match last call.1.1.2 with
     | Some v =>
         result r = Returned tt
         /\ f_opt (final r) = Some v
         /\ funct_eval (final r) = Some call.1.2
         /\ status (final r) = Some call.2
     | None =>
         result r = Raised IndexError
         /\ f_opt (final r) = f_opt o
         /\ funct_eval (final r) = funct_eval o
         /\ status (final r) = status o
     end.
Proof.
  intros call r. subst r. rewrite opt_SCG_opt_full. cbn zeta. fold call.
  destruct (last call.1.1.2); repeat split; reflexivity.
Qed.

(** X10: TNC without [f_fp], SCG without [f] and Adadelta without [fp]
    raise an [AssertionError] before anything else happens; each adapter
    ignores the callbacks it has no use for; and the simplex adapter has no
    precondition: without [f] it still calls the backend, passing [None]. *)
Theorem callbacks_required_and_ignored o g f fp f_fp (f' : vec -> float)
    (fp' : vec -> grad) (fuel : nat) :
  opt_tnc_opt None f fp o
  = (o, [], Raised (AssertionError "TNC requires f_fp"))
  /\ opt_SCG_opt g None fp o = (o, [], Raised (AssertionError ""))
  /\ Opt_Adadelta_opt fuel g f None o = (o, [], Raised (AssertionError ""))
  /\ opt_tnc_opt (Some f_fp) f fp o = opt_tnc_opt (Some f_fp) None None o
  /\ opt_lbfgsb_opt (Some f_fp) f fp o
     = opt_lbfgsb_opt (Some f_fp) None None o
  /\ opt_simplex_opt g f fp o = opt_simplex_opt None f None o
  /\ opt_SCG_opt g (Some f') (Some fp') o
     = opt_SCG_opt None (Some f') (Some fp') o
  /\ Opt_Adadelta_opt fuel g f (Some fp') o
     = Opt_Adadelta_opt fuel None None (Some fp') o
  /\ In (Ev_fmin (x_init o) (messages o) (max_f_eval o) (simplex_opts o))
        (events (opt_simplex_opt g None fp o)).
Proof.
  repeat split; try reflexivity.
  rewrite opt_simplex_opt_none. unfold events; cbn [fst snd].
  apply in_or_app; right; left; reflexivity.
Qed.

(** X11: [__str__] renders exactly when [f_opt] and [funct_eval] are set,
    and raises a [TypeError] otherwise.  So it raises on a freshly
    constructed object, and it renders after a TNC or L-BFGS-B call that got
    past its assertion and after a simplex call with a callable [f], also
    one that ended in [IndexError].  A simplex call without [f] stores
    nothing, and [__str__] does afterwards what it did before. *)
Theorem str_renders_iff_results_set o x kw f_fp g (f' : vec -> float) f fp :
  ((exists s, Optimizer_str o = inr s)
   <-> is_Some (f_opt o) /\ is_Some (funct_eval o))
  /\ (forall e, Optimizer_str o = inl e -> e = TypeError)
  /\ Optimizer_str (Optimizer_init x kw) = inl TypeError
  /\ (exists s, Optimizer_str (final (opt_tnc_opt (Some f_fp) f fp o)) = inr s)
  /\ (exists s,
        Optimizer_str (final (opt_lbfgsb_opt (Some f_fp) f fp o)) = inr s)
  /\ (exists s,
        Optimizer_str (final (opt_simplex_opt g (Some f') fp o)) = inr s)
  /\ Optimizer_str (final (opt_simplex_opt g None fp o)) = Optimizer_str o.
Proof.
  split; [|split; [|split; [reflexivity|split; [|split; [|split]]]]].
  - unfold Optimizer_str, format_f, format_d.
    destruct (f_opt o), (funct_eval o); split;
      first [ intros [s Hs]; discriminate
            | intros [[? ?] [? ?]]; discriminate
            | intros _; split; eauto
            | intros _; eauto ].
  - unfold Optimizer_str, format_f, format_d.
    destruct (f_opt o), (funct_eval o); congruence.
  - rewrite opt_tnc_opt_full. cbn zeta.
    destruct (py_getitem tnc_rcstrings _); cbn; eauto.
  - rewrite opt_lbfgsb_opt_full. cbn zeta.
    destruct (py_getitem rcstrings _); cbn; eauto.
  - rewrite opt_simplex_opt_full. cbn zeta.
    destruct (py_getitem statuses _); cbn; eauto.
  - rewrite opt_simplex_opt_none. reflexivity.
Qed.

(** X12: each tolerance that is set reaches the backend under the backend's
    name for it, and one that is [None] is not passed at all: TNC gets
    [xtol], [ftol] and [gtol] as [pgtol]; L-BFGS-B gets [gtol] as [pgtol]
    and [bfgs_factor] as [factr]; the simplex gets [xtol] and [ftol]. *)
Theorem tolerances_under_backend_names o f_fp g f fp :
  (In (Ev_fmin_tnc (x_init o) (messages o) (max_f_eval o) (tnc_opts o))
      (events (opt_tnc_opt (Some f_fp) f fp o))
   /\ tnc_opts o !! "xtol" = xtol o
   /\ tnc_opts o !! "ftol" = ftol o
   /\ tnc_opts o !! "pgtol" = gtol o
   /\ dom (tnc_opts o) ⊆ ({["xtol"; "ftol"; "pgtol"]} : gset string))
  /\ (In (Ev_fmin_l_bfgs_b (x_init o) (if messages o then 1 else -1)
            (max_iters o) (lbfgsb_opts o))
         (events (opt_lbfgsb_opt (Some f_fp) f fp o))
      /\ lbfgsb_opts o !! "pgtol" = gtol o
      /\ lbfgsb_opts o !! "factr" = bfgs_factor o)
  /\ (In (Ev_fmin (x_init o) (messages o) (max_f_eval o) (simplex_opts o))
         (events (opt_simplex_opt g f fp o))
      /\ simplex_opts o !! "xtol" = xtol o
      /\ simplex_opts o !! "ftol" = ftol o).
Proof.
  split; [|split].
  - split.
    { rewrite opt_tnc_opt_full. cbn zeta.
      destruct (py_getitem tnc_rcstrings _); left; reflexivity. }
    unfold tnc_opts, dict_set_if.
    destruct (xtol o), (ftol o), (gtol o); repeat split;
      rewrite ?dom_insert_L, ?dom_empty_L;
      try (set_unfold; intuition auto; fail);
      by simplify_map_eq.
  - split.
    { rewrite opt_lbfgsb_opt_full. cbn zeta.
      destruct (py_getitem rcstrings _); unfold events; cbn [fst snd];
        apply in_or_app; right; left; reflexivity. }
    unfold lbfgsb_opts, dict_set_if.
    destruct (gtol o), (bfgs_factor o); split; by simplify_map_eq.
  - split.
    { destruct f as [f'|].
      - rewrite opt_simplex_opt_full. cbn zeta.
        destruct (py_getitem statuses _); unfold events; cbn [fst snd];
          apply in_or_app; right; left; reflexivity.
      - rewrite opt_simplex_opt_none. unfold events; cbn [fst snd].
        apply in_or_app; right; left; reflexivity. }
    unfold simplex_opts, dict_set_if.
    destruct (xtol o), (ftol o); split; by simplify_map_eq.
Qed.

(** X13: the SCG constructor warns exactly when [max_f_eval] is supplied by
    keyword; supplied positionally (as the third argument after [x_init])
    or not at all, it does not warn.  It, like the other constructors,
    builds the object it builds without the [messages] and [max_f_eval]
    arguments. *)
Theorem constructors_do_not_read_max_f_eval x kw (sr dc mo : option pynum) :
  ((opt_SCG_init x kw).1 <> []
   <-> is_Some (kw_max_f_eval kw) /\ (n_positional kw < 3)%nat)
  /\ (opt_SCG_init x kw).2 = (opt_SCG_init x (drop_unread kw)).2
  /\ Optimizer_init x kw = Optimizer_init x (drop_unread kw)
  /\ opt_tnc_init x kw = opt_tnc_init x (drop_unread kw)
  /\ opt_lbfgsb_init x kw = opt_lbfgsb_init x (drop_unread kw)
  /\ opt_simplex_init x kw = opt_simplex_init x (drop_unread kw)
  /\ Opt_Adadelta_init sr dc mo x kw
     = Opt_Adadelta_init sr dc mo x (drop_unread kw).
Proof.
  split; [|repeat split; reflexivity].
  unfold opt_SCG_init, max_f_eval_in_kwargs.
  destruct (kw_max_f_eval kw) as [v|]; simpl.
  - destruct (n_positional kw <? 3)%nat eqn:Hn; simpl.
    + apply Nat.ltb_lt in Hn. split; [intros _; split; eauto | discriminate].
    + apply Nat.ltb_ge in Hn. split; [congruence | intros [_ Hlt]; lia].
  - split; [congruence | intros [[v Hv] _]; discriminate].
Qed.

(** X14: with climin numbering its iterations from 1, the Adadelta adapter
    takes [max_iters] climin steps, and one step when [max_iters] is below
    1: given that much fuel the call returns with [x_opt] set to [opt.wrt]
    after that step. *)
Theorem adadelta_takes_max_iters_steps x kw (sr dc mo : option pynum)
    g f (fp : vec -> grad) (fuel : nat) :
  let self := Opt_Adadelta_init sr dc mo x kw in
  let opt :=
    climin_Adadelta x fp (default (PyFloat (1 # 10)) sr)
      (default (PyFloat (9 # 10)) dc) (default (PyInt 0) mo) in
  let n := Z.to_nat (Z.max 1 (max_iters self)) in
  (forall k : nat, info_n_iter opt k = Z.of_nat k + 1) ->
  (n <= fuel)%nat ->
  result (Opt_Adadelta_opt fuel g f (Some fp) self) = Returned tt
  /\ x_opt (final (Opt_Adadelta_opt fuel g f (Some fp) self))
     = Some (wrt opt (n - 1)).
Proof.
  intros self opt n Hcount Hfuel.
  rewrite (Opt_Adadelta_opt_full self g f fp fuel _ _ _
             eq_refl eq_refl eq_refl).
  cbn zeta. change (climin_Adadelta (x_init self) fp _ _ _) with opt.
  assert (Hreach : max_iters self <= info_n_iter opt (n - 1)).
  { rewrite Hcount. subst n. lia. }
  destruct (adadelta_loop_terminates opt (max_iters self) fuel 0 (n - 1)
              Hreach ltac:(subst n; lia)) as (j & Hj & Hle).
  rewrite Hj.
  destruct (adadelta_loop_breaks _ _ _ _ _ Hj) as (_ & Hm & _).
  rewrite Hcount in Hm.
  assert (j = (n - 1)%nat) as -> by (subst n; lia).
  split; reflexivity.
Qed.

(** X15: whenever [run] returns normally, for any of the five adapters and
    from any object, [status] and [x_opt] are set. *)
Theorem run_returns_with_status o g f fp (fuel : nat) (start end_ : datetime) :
  results_set_on_return (Optimizer_run (opt_tnc_opt g f fp) start end_ o)
  /\ results_set_on_return
       (Optimizer_run (opt_lbfgsb_opt g f fp) start end_ o)
  /\ results_set_on_return
       (Optimizer_run (opt_simplex_opt g f fp) start end_ o)
  /\ results_set_on_return (Optimizer_run (opt_SCG_opt g f fp) start end_ o)
  /\ results_set_on_return
       (Optimizer_run (Opt_Adadelta_opt fuel g f fp) start end_ o).
Proof.
  unfold results_set_on_return, Optimizer_run, bind, modify_self.
  split; [|split; [|split; [|split]]].
  - destruct g as [f_fp|]; [|exact I].
    rewrite opt_tnc_opt_full. cbn zeta.
    destruct (py_getitem tnc_rcstrings _); cbn; eauto.
  - destruct g as [f_fp|]; [|exact I].
    rewrite opt_lbfgsb_opt_full. cbn zeta.
    destruct (py_getitem rcstrings _); cbn; eauto.
  - destruct f as [f'|]; [|rewrite opt_simplex_opt_none; exact I].
    rewrite opt_simplex_opt_full. cbn zeta.
    destruct (py_getitem statuses _); cbn; eauto.
  - destruct f as [f|]; [|exact I]. destruct fp as [fp|]; [|exact I].
    rewrite opt_SCG_opt_full. cbn zeta.
    destruct (last _); cbn; eauto.
  - destruct fp as [fp|]; [|exact I].
    destruct (step_rate o) as [sr|] eqn:H1;
      [|run_all; rewrite H1; exact I].
    destruct (decay o) as [dc|] eqn:H2;
      [|run_all; rewrite H1; cbn; rewrite H2; exact I].
    destruct (momentum o) as [mo|] eqn:H3;
      [|run_all; rewrite H1; cbn; rewrite H2; cbn; rewrite H3; exact I].
    rewrite (Opt_Adadelta_opt_full o g f fp fuel sr dc mo H1 H2 H3).
    cbn zeta. destruct (adadelta_loop _ _ _ _); cbn; eauto.
Qed.

End AdapterMore.

(** ** The further properties on concrete inputs *)

Section ConcreteMore.
Local Open Scope Q_scope.

Lemma tnc_code_past_table_example :
  let E := demo_env 6 in
  let o := @opt_tnc_init E [0; 0] no_kwargs in
  let r := @Optimizer_run E (@opt_tnc_opt E (Some demo_f_fp) None None)
             0%Z 5%Z o in
  result r = Raised IndexError
  /\ x_opt (final r) = Some [0; 0]
  /\ f_opt (final r) = Some (demo_f_fp [0; 0]).1
  /\ funct_eval (final r) = Some 1%Z
  /\ status (final r) = None
  /\ time (final r) = "Not available".
Proof.
  intros E o.
  apply (@tnc_code_past_table E o demo_f_fp None None 0%Z 5%Z).
  vm_compute. discriminate.
Defined.

Lemma lbfgsb_status_by_warnflag_example :
  let E := demo_env 2 in
  let r := @opt_lbfgsb_opt E (Some demo_f_fp) None None
             (@opt_lbfgsb_init E [0; 0] no_kwargs) in
  result r = Returned tt
  /\ status (final r) = Some "ErrorABNORMAL_TERMINATION_IN_LNSRCH".
Proof.
  intros E.
  exact (proj1 (proj2 (proj2
           (@lbfgsb_status_by_warnflag E
              (@opt_lbfgsb_init E [0; 0] no_kwargs) demo_f_fp None None)))
           eq_refl).
Defined.

Lemma adadelta_takes_max_iters_steps_example :
  let E := demo_env 0 in
  let self := @Opt_Adadelta_init E None None None [0; 0] no_kwargs in
  result (@Opt_Adadelta_opt E 1000 None None (Some SCGSpec.demo_fp) self)
  = Returned tt
  /\ x_opt (final (@Opt_Adadelta_opt E 1000 None None
                     (Some SCGSpec.demo_fp) self))
     = Some [-1; -1].
Proof.
  intros E self.
  apply (@adadelta_takes_max_iters_steps E [0; 0] no_kwargs None None None
           None None SCGSpec.demo_fp 1000%nat).
  - intros k. reflexivity.
  - apply Nat.leb_le. vm_compute. reflexivity.
Defined.

End ConcreteMore.
